(** * sorobandomains-sdk-js: a shallow embedding of [src/sdk.ts]

    The development follows the source file top to bottom.

    - [jsstring], [JsVal]: the JavaScript values the SDK handles (strings as
      UTF-16 code units, the native values [scValToNative] hands back).
    - [Keccak], [Sha3]: the [js-sha3] dependency: the Keccak-256 sponge and
      the streaming [Hasher] object ([create], [update], [digest], [hex]).
    - [Buffer_from_hex]: [Buffer.from(s, 'hex')].
    - the ledger SDK: the values its constructors and builders make
      ([ScVal], [Contract], [Transaction], ...) are plain data; the calls
      that can throw do so in the model: [new Contract(id)] on an
      identifier that [StrKey.decodeContract] refuses, [setTimeout] on a
      negative timeout, [build()] when the ledger SDK cannot build; the
      functions whose result is decided inside the ledger SDK
      ([scValToNative], [nativeToScVal], [assembleTransaction],
      [StrKey.decodeContract], what [build()] throws) are the fields of the
      injected handle [StellarSDK].
    - [Async]: the asynchronous operations as trees of RPC requests; [run]
      plays such a tree against an RPC server and records every request.
    - [parseDomain], [searchDomain], [getDomainData], [setDomainData],
      [removeDomainData]: the methods of [SorobanDomainsSDK].

    An exception is a value of [Error]: synchronous code returns a [Result],
    an asynchronous operation resolves or rejects. *)

From Stdlib Require Import ZArith List String Ascii Bool Lia DecimalString.
Import ListNotations.
Local Open Scope Z_scope.

Set Warnings "-register-all".

(* ================================================================= *)
(** ** JavaScript strings *)

(** A JavaScript string is a sequence of UTF-16 code units. *)
Definition jsstring : Type := list Z.

(** A source literal made of ASCII characters. *)
Definition lit (s : string) : jsstring :=
  map (fun c => Z.of_N (N_of_ascii c)) (list_ascii_of_string s).

Definition jsstring_eqb (a b : jsstring) : bool :=
  if list_eq_dec Z.eq_dec a b then true else false.

(* ================================================================= *)
(** ** Errors *)

(** Modelled from the spec: the three error classes that [sdk.ts] imports
    from [./errors] ([DomainNotFound], [DomainDataNotFound] and
    [UnsupportedValueType] in the spec's taxonomy), next to the errors of the
    language itself: [JsError m] is [new Error(m)], [JsTypeError] is what a
    member access on [null] or [undefined] throws, [JsRangeError] what
    [toString] throws on a radix it cannot use, [JsSyntaxError] what
    [BigInt] throws on a string that is not a number. *)
Inductive Error : Type :=
| JsError (message : jsstring)
| JsTypeError
| JsRangeError
| JsSyntaxError
| Domain404Error
| DomainData404Error
| DomainDataUnsupportedValueType.

Inductive Result (A : Type) : Type :=
| Ok (a : A)
| Err (e : Error).
Arguments Ok {A} a.
Arguments Err {A} e.

Definition rbind {A B : Type} (r : Result A) (k : A -> Result B) : Result B :=
  match r with
  | Ok a => k a
  | Err e => Err e
  end.

Declare Scope result_scope.
Delimit Scope result_scope with result.
Notation "x <- r ;; k" := (rbind r (fun x => k))
  (at level 61, r at next level, right associativity) : result_scope.

(* ================================================================= *)
(** ** js-sha3: Keccak-256 *)

Module Keccak.

Definition mask64 : Z := 0xFFFFFFFFFFFFFFFF.

Definition rotl64 (x n : Z) : Z :=
  Z.land (Z.lor (Z.shiftl x n) (Z.shiftr x (64 - n))) mask64.

(** The state is 25 lanes of 64 bits, lane (x, y) at index x + 5 y. *)
Definition lane (st : list Z) (x y : nat) : Z :=
  nth (x mod 5 + 5 * (y mod 5)) st 0.

Definition coords : list nat := [0; 1; 2; 3; 4]%nat.

Definition lanes (f : nat -> nat -> Z) : list Z :=
  flat_map (fun y => map (fun x => f x y) coords) coords.

Definition column (st : list Z) (x : nat) : Z :=
  fold_left Z.lxor (map (lane st x) coords) 0.

Definition theta (st : list Z) : list Z :=
  lanes (fun x y =>
    Z.lxor (lane st x y)
      (Z.lxor (column st (x + 4)) (rotl64 (column st (x + 1)) 1))).

Definition rotation_offsets : list Z :=
  [ 0;  1; 62; 28; 27;
   36; 44;  6; 55; 20;
    3; 10; 43; 25; 39;
   41; 45; 15; 21;  8;
   18;  2; 61; 56; 14].

(** rho and pi together: lane (x, y) is rotated and moved to
    (y, 2x + 3y). *)
Definition rho_pi (st : list Z) : list Z :=
  lanes (fun x' y' =>
    let x := ((x' + 3 * y') mod 5)%nat in
    let y := x' in
    rotl64 (lane st x y) (nth (x + 5 * y) rotation_offsets 0)).

Definition chi (st : list Z) : list Z :=
  lanes (fun x y =>
    Z.lxor (lane st x y)
      (Z.land (Z.lxor (lane st (x + 1) y) mask64) (lane st (x + 2) y))).

Definition RC : list Z :=
  [0x0000000000000001; 0x0000000000008082; 0x800000000000808A;
   0x8000000080008000; 0x000000000000808B; 0x0000000080000001;
   0x8000000080008081; 0x8000000000008009; 0x000000000000008A;
   0x0000000000000088; 0x0000000080008009; 0x000000008000000A;
   0x000000008000808B; 0x800000000000008B; 0x8000000000008089;
   0x8000000000008003; 0x8000000000008002; 0x8000000000000080;
   0x000000000000800A; 0x800000008000000A; 0x8000000080008081;
   0x8000000000008080; 0x0000000080000001; 0x8000000080008008].

Definition iota (rc : Z) (st : list Z) : list Z :=
  match st with
  | [] => []
  | a :: rest => Z.lxor a rc :: rest
  end.

Definition round (st : list Z) (rc : Z) : list Z :=
  iota rc (chi (rho_pi (theta st))).

Definition f1600 (st : list Z) : list Z := fold_left round RC st.

(** Keccak-256: capacity 512, so 136 bytes are absorbed per block. *)
Definition byteCount : nat := 136.

(** Keccak padding (first pad byte 0x01, last 0x80). *)
Definition pad (m : list Z) : list Z :=
  match (byteCount - List.length m mod byteCount)%nat with
  | 1%nat => m ++ [0x81]
  | q => m ++ [0x01] ++ repeat 0 (q - 2) ++ [0x80]
  end.

Fixpoint le_lane (bs : list Z) : Z :=
  match bs with
  | [] => 0
  | b :: rest => Z.lor (Z.land b 255) (Z.shiftl (le_lane rest) 8)
  end.

Fixpoint to_lanes (n : nat) (bs : list Z) : list Z :=
  match n with
  | O => []
  | S n' => le_lane (firstn 8 bs) :: to_lanes n' (skipn 8 bs)
  end.

Fixpoint xor_into (st blk : list Z) : list Z :=
  match st, blk with
  | s :: st', b :: blk' => Z.lxor s b :: xor_into st' blk'
  | _, _ => st
  end.

Fixpoint absorb (blocks : nat) (m : list Z) (st : list Z) : list Z :=
  match blocks with
  | O => st
  | S n =>
      absorb n (skipn byteCount m)
        (f1600 (xor_into st (to_lanes 17 (firstn byteCount m))))
  end.

Definition lane_bytes (l : Z) : list Z :=
  map (fun k => Z.land (Z.shiftr l (8 * k)) 255) [0; 1; 2; 3; 4; 5; 6; 7].

(** The 256 output bits are the first four lanes, little endian. *)
Definition squeeze (st : list Z) : list Z :=
  lane_bytes (nth 0 st 0) ++ lane_bytes (nth 1 st 0) ++
  lane_bytes (nth 2 st 0) ++ lane_bytes (nth 3 st 0).

Definition keccak256 (m : list Z) : list Z :=
  let p := pad m in
  squeeze (absorb (List.length p / byteCount) p (repeat 0 25)).

End Keccak.

(* ================================================================= *)
(** ** js-sha3: the [Hasher] object *)

Module Sha3.

(** [update] on a string feeds its UTF-8 bytes, computed code unit by code
    unit; a surrogate is combined with the code unit after it (with 0 when
    the string ends there, [NaN & 0x3ff]). *)
Definition utf8_2 (code : Z) : list Z :=
  [Z.lor 0xc0 (Z.shiftr code 6); Z.lor 0x80 (Z.land code 0x3f)].

Definition utf8_3 (code : Z) : list Z :=
  [Z.lor 0xe0 (Z.shiftr code 12);
   Z.lor 0x80 (Z.land (Z.shiftr code 6) 0x3f);
   Z.lor 0x80 (Z.land code 0x3f)].

Definition utf8_4 (code : Z) : list Z :=
  [Z.lor 0xf0 (Z.shiftr code 18);
   Z.lor 0x80 (Z.land (Z.shiftr code 12) 0x3f);
   Z.lor 0x80 (Z.land (Z.shiftr code 6) 0x3f);
   Z.lor 0x80 (Z.land code 0x3f)].

Definition surrogate_pair (code next : Z) : Z :=
  0x10000 + Z.lor (Z.shiftl (Z.land code 0x3ff) 10) (Z.land next 0x3ff).

Fixpoint utf8 (message : jsstring) : list Z :=
  match message with
  | [] => []
  | code :: rest =>
      if code <? 0x80 then code :: utf8 rest
      else if code <? 0x800 then utf8_2 code ++ utf8 rest
      else if (code <? 0xd800) || (0xe000 <=? code) then
        utf8_3 code ++ utf8 rest
      else
        match rest with
        | [] => utf8_4 (surrogate_pair code 0)
        | next :: rest' => utf8_4 (surrogate_pair code next) ++ utf8 rest'
        end
  end.

(** What [update] accepts: a string, or an array of bytes such as the one
    [digest()] returns. *)
Inductive Message : Type :=
| MString (s : jsstring)
| MBytes (bs : list Z).

Definition formatMessage (m : Message) : list Z :=
  match m with
  | MString s => utf8 s
  | MBytes bs => bs
  end.

(** The accumulator: the bytes fed so far, and whether [finalize] ran. *)
Record Hasher : Type := mkHasher {
  absorbed : list Z;
  finalized : bool
}.

Definition FINALIZE_ERROR : jsstring := lit "finalize already called".

Definition create : Hasher := mkHasher [] false.

Definition update (h : Hasher) (m : Message) : Result Hasher :=
  if finalized h then Err (JsError FINALIZE_ERROR)
  else Ok (mkHasher (absorbed h ++ formatMessage m) false).

Definition finalize (h : Hasher) : Hasher := mkHasher (absorbed h) true.

(** [digest()] finalizes the hasher and returns the 32 bytes. *)
Definition digest (h : Hasher) : list Z * Hasher :=
  (Keccak.keccak256 (absorbed h), finalize h).

Definition HEX_CHARS : jsstring := lit "0123456789abcdef".

Definition hex_byte (b : Z) : jsstring :=
  [nth (Z.to_nat (Z.land (Z.shiftr b 4) 0x0F)) HEX_CHARS 0;
   nth (Z.to_nat (Z.land b 0x0F)) HEX_CHARS 0].

Definition hex_of_bytes (bs : list Z) : jsstring := flat_map hex_byte bs.

(** [hex()] finalizes the hasher and returns the digest in hexadecimal. *)
Definition hex (h : Hasher) : jsstring * Hasher :=
  (hex_of_bytes (Keccak.keccak256 (absorbed h)), finalize h).

End Sha3.

(** One-shot Keccak-256 of a byte sequence and of a string. *)
Definition Keccak256 (bs : list Z) : list Z := Keccak.keccak256 bs.
Definition Keccak256_string (s : jsstring) : list Z :=
  Keccak.keccak256 (Sha3.utf8 s).

(* ================================================================= *)
(** ** JavaScript values

    The native values that reach [sdk.ts]: what [scValToNative] returns
    ([null] for void, booleans, numbers for 32-bit integers, bigints for the
    wider ones, strings, [Buffer]s, arrays, plain objects built with
    [Object.fromEntries]) and what a member access on those returns. Numbers
    are the integers the decoder produces, so they are kept in [Z]. *)

Inductive JsVal : Type :=
| JsUndefined
| JsNull
| JsBool (b : bool)
| JsNumber (n : Z)
| JsBigInt (n : Z)
| JsString (s : jsstring)
| JsBuffer (bytes : list Z)
| JsArrayBuffer
| JsArray (elems : list JsVal)
| JsObject (props : list (jsstring * JsVal)).

(** [ToBoolean]: what [if (v)] and [!v] test. *)
Definition truthy (v : JsVal) : bool :=
  match v with
  | JsUndefined | JsNull => false
  | JsBool b => b
  | JsNumber n | JsBigInt n => negb (n =? 0)
  | JsString s => match s with [] => false | _ :: _ => true end
  | JsBuffer _ | JsArrayBuffer | JsArray _ | JsObject _ => true
  end.

(** [v === 'literal']. *)
Definition strict_eq_string (v : JsVal) (s : jsstring) : bool :=
  match v with
  | JsString s' => jsstring_eqb s' s
  | _ => false
  end.

Definition decimal (n : Z) : jsstring := lit (NilZero.string_of_int (Z.to_int n)).

Fixpoint own_property (props : list (jsstring * JsVal)) (key : jsstring)
  : option JsVal :=
  match props with
  | [] => None
  | (k, v) :: rest => if jsstring_eqb k key then Some v else own_property rest key
  end.

Definition or_undefined (o : option JsVal) : JsVal :=
  match o with
  | Some v => v
  | None => JsUndefined
  end.

(** [v[i]] for an integer literal [i]. *)
Definition get_index (v : JsVal) (i : nat) : Result JsVal :=
  match v with
  | JsUndefined | JsNull => Err JsTypeError
  | JsArray elems => Ok (nth i elems JsUndefined)
  | JsString s => Ok (or_undefined (option_map (fun c => JsString [c]) (nth_error s i)))
  | JsBuffer bytes => Ok (or_undefined (option_map JsNumber (nth_error bytes i)))
  | JsObject props => Ok (or_undefined (own_property props (decimal (Z.of_nat i))))
  | JsBool _ | JsNumber _ | JsBigInt _ | JsArrayBuffer => Ok JsUndefined
  end.

(** The member names [sdk.ts] reads from a decoded record. *)
Inductive Field : Type :=
| f_node | f_owner | f_parent | f_address | f_exp_date | f_snapshot | f_collateral.

Definition field_name (f : Field) : jsstring :=
  match f with
  | f_node => lit "node"
  | f_owner => lit "owner"
  | f_parent => lit "parent"
  | f_address => lit "address"
  | f_exp_date => lit "exp_date"
  | f_snapshot => lit "snapshot"
  | f_collateral => lit "collateral"
  end.

(** [v.f] for one of those names. None of them is defined on the prototypes
    of the values above, but for [parent] on a [Buffer], an accessor that
    returns the underlying [ArrayBuffer]. *)
Definition get_field (v : JsVal) (f : Field) : Result JsVal :=
  match v with
  | JsUndefined | JsNull => Err JsTypeError
  | JsObject props => Ok (or_undefined (own_property props (field_name f)))
  | JsBuffer _ => Ok (match f with f_parent => JsArrayBuffer | _ => JsUndefined end)
  | _ => Ok JsUndefined
  end.

(** [Buffer.prototype.toString()] decodes the bytes as UTF-8; how malformed
    input is replaced depends on the [Buffer] implementation in use, so the
    decoder is a parameter of the model. *)
Class BufferDecoder : Type := utf8Slice : list Z -> jsstring.

(** [buf.toString('hex')]. *)
Definition hexSlice (bytes : list Z) : jsstring := Sha3.hex_of_bytes bytes.

Section JsToString.
Context {decoder : BufferDecoder}.

(** The abstract operation [ToString] on the values above. An object whose
    own [toString] property shadows [Object.prototype.toString] cannot be
    converted, since no value here is callable. *)
Fixpoint ToString (v : JsVal) : Result jsstring :=
  match v with
  | JsUndefined => Ok (lit "undefined")
  | JsNull => Ok (lit "null")
  | JsBool b => Ok (if b then lit "true" else lit "false")
  | JsNumber n | JsBigInt n => Ok (decimal n)
  | JsString s => Ok s
  | JsBuffer bytes => Ok (utf8Slice bytes)
  | JsArrayBuffer => Ok (lit "[object ArrayBuffer]")
  | JsArray elems =>
      (fix join (l : list JsVal) : Result jsstring :=
         let element (x : JsVal) : Result jsstring :=
           match x with
           | JsUndefined | JsNull => Ok []
           | _ => ToString x
           end in
         match l with
         | [] => Ok []
         | [x] => element x
         | x :: rest =>
             (a <- element x ;; b <- join rest ;; Ok (a ++ lit "," ++ b))%result
         end) elems
  | JsObject props =>
      match own_property props (lit "toString") with
      | Some _ => Err JsTypeError
      | None => Ok (lit "[object Object]")
      end
  end.

(** [v.toString()]. *)
Definition toString (v : JsVal) : Result jsstring :=
  match v with
  | JsUndefined | JsNull => Err JsTypeError
  | _ => ToString v
  end.

(** [v.toString('hex')]: the encoding of a [Buffer]; a radix that numbers
    and bigints refuse; ignored by the other values. *)
Definition toString_hex (v : JsVal) : Result jsstring :=
  match v with
  | JsUndefined | JsNull => Err JsTypeError
  | JsBuffer bytes => Ok (hexSlice bytes)
  | JsNumber _ | JsBigInt _ => Err JsRangeError
  | _ => ToString v
  end.

End JsToString.

(* ================================================================= *)
(** ** [Buffer.from(string, 'hex')]

    Node's decoder: two hexadecimal digits per byte, each read from the low
    byte of its UTF-16 code unit; decoding stops at the first pair that is
    not two hexadecimal digits, a trailing single character is dropped. *)

Definition hex_digit (c : Z) : option Z :=
  if (48 <=? c) && (c <=? 57) then Some (c - 48)
  else if (97 <=? c) && (c <=? 102) then Some (c - 87)
  else if (65 <=? c) && (c <=? 70) then Some (c - 55)
  else None.

Fixpoint Buffer_from_hex (s : jsstring) : list Z :=
  match s with
  | hi :: lo :: rest =>
      match hex_digit (Z.land hi 0xFF), hex_digit (Z.land lo 0xFF) with
      | Some h, Some l => (16 * h + l) :: Buffer_from_hex rest
      | _, _ => []
      end
  | _ => []
  end.

(* ================================================================= *)
(** ** The declarations of [./types] *)

(** Modelled from the spec: [RecordKey], the enumeration of exactly two
    symbols that selects the lookup table of the [record] entry point. *)
Inductive RecordKey : Type :=
| RecordKey_Record
| RecordKey_SubRecord.

(** Modelled from the spec: the symbol each [RecordKey] member stands for. *)
Definition RecordKey_symbol (k : RecordKey) : jsstring :=
  match k with
  | RecordKey_Record => lit "Record"
  | RecordKey_SubRecord => lit "SubRecord"
  end.

(** Modelled from the spec: [RecordType], the tag of a lookup result. *)
Inductive RecordType : Type :=
| RecordType_Domain
| RecordType_SubDomain.

Module Domain.
(** Modelled from the spec: the [Domain] record shape, six fields. The
    address is handed over as the decoder produced it. *)
Record t : Type := mk {
  node : jsstring;
  owner : jsstring;
  address : JsVal;
  exp_date : jsstring;
  snapshot : jsstring;
  collateral : jsstring
}.
End Domain.

Module SubDomain.
(** Modelled from the spec: the [SubDomain] record shape, four fields. *)
Record t : Type := mk {
  node : jsstring;
  parent : jsstring;
  address : JsVal;
  snapshot : jsstring
}.
End SubDomain.

Inductive RecordValue : Type :=
| DomainValue (d : Domain.t)
| SubDomainValue (s : SubDomain.t).

(** Modelled from the spec: the [Record] type of [./types], an object with
    a [type] tag and a [value]. *)
Record RecordT : Type := mkRecord {
  type : RecordType;
  value : RecordValue
}.

(** Modelled from the spec: [SorobanDomainsSDKParams], the configuration
    given at construction, without its two handles: the RPC client is the
    [Server] that [run] plays an operation against, the ledger SDK module is
    the [StellarSDK] instance. An optional member that is not set is [None]. *)
Record SorobanDomainsSDKParams : Type := mkParams {
  network : jsstring;
  simulationAccount : jsstring;
  vaultsContractId : option jsstring;
  valuesDatabaseContractId : option jsstring;
  defaultFee : jsstring;
  defaultTimeout : option Z
}.

(** [DomainStorageValue] is a pair [[discriminant, payload]]; the code reads
    it with [value[0]] and [value[1]], so it is kept as the value it is. *)
Definition DomainStorageValue : Type := JsVal.

(* ================================================================= *)
(** ** The ledger SDK: data *)

(** [xdr.ScVal]: the constructors take what they are given. *)
Inductive ScVal : Type :=
| scvVoid
| scvBool (b : bool)
| scvU32 (n : Z)
| scvI32 (n : Z)
| scvU64 (n : Z)
| scvI64 (n : Z)
| scvU128 (n : Z)
| scvI128 (n : Z)
| scvBytes (v : JsVal)
| scvString (v : JsVal)
| scvSymbol (v : JsVal)
| scvAddress (a : jsstring)
| scvVec (items : list ScVal)
| scvMap (entries : list (ScVal * ScVal)).

Record Contract : Type := mkContract { contractId : jsstring }.

Inductive Operation : Type :=
| invokeContractFunction (contract : jsstring) (method : jsstring) (args : list ScVal).

(** [contract.call(method, ...args)]. *)
Definition call (c : Contract) (method : jsstring) (args : list ScVal) : Operation :=
  invokeContractFunction (contractId c) method args.

Record Account : Type := mkAccount {
  accountId : jsstring;
  sequence : Z
}.

Record Transaction : Type := mkTransaction {
  tx_source : Account;
  tx_networkPassphrase : jsstring;
  tx_fee : jsstring;
  tx_timeout : Z;
  tx_operations : list Operation
}.

Record TransactionBuilder : Type := mkBuilder {
  tb_source : Account;
  tb_networkPassphrase : jsstring;
  tb_fee : jsstring;
  tb_timeout : option Z;
  tb_operations : list Operation
}.

Definition new_TransactionBuilder (source : Account) (networkPassphrase fee : jsstring)
  : TransactionBuilder :=
  mkBuilder source networkPassphrase fee None [].

(** [builder.setTimeout(timeout)] refuses a negative timeout. *)
Definition setTimeout (timeout : Z) (b : TransactionBuilder) : Result TransactionBuilder :=
  if timeout <? 0 then Err (JsError (lit "timeout cannot be negative"))
  else
    Ok (mkBuilder (tb_source b) (tb_networkPassphrase b) (tb_fee b) (Some timeout)
          (tb_operations b)).

Definition addOperation (op : Operation) (b : TransactionBuilder) : TransactionBuilder :=
  mkBuilder (tb_source b) (tb_networkPassphrase b) (tb_fee b) (tb_timeout b)
    (tb_operations b ++ [op]).

(** The transaction [builder.build()] returns, when it returns one. *)
Definition built (b : TransactionBuilder) : Transaction :=
  mkTransaction (tb_source b) (tb_networkPassphrase b) (tb_fee b)
    (match tb_timeout b with Some t => t | None => 0 end) (tb_operations b).

Record SimulateHostFunctionResult : Type := mkSimResult { retval : ScVal }.

(** [SorobanRpc.Api.SimulateTransactionResponse]: an error response has an
    [error] member, a success response may lack its [result]. *)
Inductive SimulateTransactionResponse : Type :=
| SimulateTransactionErrorResponse (error : jsstring)
| SimulateTransactionSuccessResponse (result : option SimulateHostFunctionResult)
| SimulateTransactionRestoreResponse (result : SimulateHostFunctionResult).

(** [SorobanRpc.Api.isSimulationError(sim)]: ['error' in sim]. *)
Definition isSimulationError (sim : SimulateTransactionResponse) : bool :=
  match sim with
  | SimulateTransactionErrorResponse _ => true
  | _ => false
  end.

(** [sim.error], read once [isSimulationError] holds. *)
Definition sim_error (sim : SimulateTransactionResponse) : jsstring :=
  match sim with
  | SimulateTransactionErrorResponse error => error
  | _ => []
  end.

(** [sim.result!.retval]. *)
Definition sim_result_retval (sim : SimulateTransactionResponse) : Result ScVal :=
  match sim with
  | SimulateTransactionSuccessResponse (Some r)
  | SimulateTransactionRestoreResponse r => Ok (retval r)
  | _ => Err JsTypeError
  end.

(** What is decided inside the injected ledger SDK module. *)
Class StellarSDK : Type := {
  (** [scValToNative(v)] *)
  scValToNative : ScVal -> JsVal;
  (** [nativeToScVal(v, { type: 'i128' })] *)
  nativeToScVal_i128 : JsVal -> Result ScVal;
  (** [SorobanRpc.assembleTransaction(tx, sim).build()] *)
  assembleTransaction : Transaction -> SimulateTransactionResponse -> Result Transaction;
  (** [StrKey.decodeContract(id)]: the raw contract identifier, or [None]
      when it throws *)
  decodeContract : jsstring -> option (list Z);
  (** what [builder.build()] throws on this builder, if it throws *)
  build_throws : TransactionBuilder -> option Error
}.

(** [new Contract(id)]: whatever [StrKey.decodeContract] throws is replaced
    by one error that quotes the identifier. *)
Definition new_Contract {stellarSDK : StellarSDK} (id : jsstring) : Result Contract :=
  match decodeContract id with
  | Some _ => Ok (mkContract id)
  | None => Err (JsError (lit "Invalid contract ID: " ++ id))
  end.

(** [builder.build()]. *)
Definition build {stellarSDK : StellarSDK} (b : TransactionBuilder) : Result Transaction :=
  match build_throws b with
  | Some e => Err e
  | None => Ok (built b)
  end.

(* ================================================================= *)
(** ** Asynchronous operations

    An operation is a tree: it resolves, rejects, or awaits one of the two
    requests [sdk.ts] sends to the RPC client and goes on with the answer. *)

Inductive Async (A : Type) : Type :=
| Resolve (a : A)
| Reject (e : Error)
| GetAccount (address : jsstring) (k : Account -> Async A)
| SimulateTransaction (tx : Transaction) (k : SimulateTransactionResponse -> Async A).
Arguments Resolve {A} a.
Arguments Reject {A} e.
Arguments GetAccount {A} address k.
Arguments SimulateTransaction {A} tx k.

Fixpoint abind {A B : Type} (m : Async A) (f : A -> Async B) : Async B :=
  match m with
  | Resolve a => f a
  | Reject e => Reject e
  | GetAccount address k => GetAccount address (fun acc => abind (k acc) f)
  | SimulateTransaction tx k => SimulateTransaction tx (fun sim => abind (k sim) f)
  end.

(** A synchronous computation inside an [async] function: what it throws
    rejects the promise. *)
Definition lift {A : Type} (r : Result A) : Async A :=
  match r with
  | Ok a => Resolve a
  | Err e => Reject e
  end.

Definition rpc_getAccount (address : jsstring) : Async Account :=
  GetAccount address Resolve.

Definition rpc_simulateTransaction (tx : Transaction) : Async SimulateTransactionResponse :=
  SimulateTransaction tx Resolve.

Declare Scope async_scope.
Delimit Scope async_scope with async.
Notation "x <- m ;; k" := (abind m (fun x => k))
  (at level 61, m at next level, right associativity) : async_scope.

(** The RPC client: each request is answered or rejected. *)
Record Server : Type := mkServer {
  getAccount : jsstring -> Result Account;
  simulateTransaction : Transaction -> Result SimulateTransactionResponse
}.

Inductive Request : Type :=
| ReqGetAccount (address : jsstring)
| ReqSimulateTransaction (tx : Transaction).

(** [run rpc m]: the requests [m] sends to [rpc], in order, and how [m]
    settles. *)
Fixpoint run {A : Type} (rpc : Server) (m : Async A) : list Request * Result A :=
  match m with
  | Resolve a => ([], Ok a)
  | Reject e => ([], Err e)
  | GetAccount address k =>
      match getAccount rpc address with
      | Ok acc => let (reqs, r) := run rpc (k acc) in (ReqGetAccount address :: reqs, r)
      | Err e => ([ReqGetAccount address], Err e)
      end
  | SimulateTransaction tx k =>
      match simulateTransaction rpc tx with
      | Ok sim => let (reqs, r) := run rpc (k sim) in (ReqSimulateTransaction tx :: reqs, r)
      | Err e => ([ReqSimulateTransaction tx], Err e)
      end
  end.

Definition requests {A : Type} (rpc : Server) (m : Async A) : list Request :=
  fst (run rpc m).

Definition outcome {A : Type} (rpc : Server) (m : Async A) : Result A :=
  snd (run rpc m).

(* ================================================================= *)
(** ** [class SorobanDomainsSDK] *)

Record DomainParams : Type := mkDomainParams {
  domain : jsstring;
  subDomain : option jsstring
}.

(** [static parseDomain(params)]. [if (params.subDomain)] holds for a
    sub-domain that is given and is not the empty string. *)
Definition parseDomain (params : DomainParams) : Result jsstring :=
  (xlm <- Sha3.update Sha3.create (Sha3.MString (lit "xlm")) ;;
   record <- Sha3.update Sha3.create (Sha3.MBytes (fst (Sha3.digest xlm))) ;;
   dom <- Sha3.update Sha3.create (Sha3.MString (domain params)) ;;
   record <- Sha3.update record (Sha3.MBytes (fst (Sha3.digest dom))) ;;
   match subDomain params with
   | Some ((_ :: _) as subDomain) =>
       parent <- Sha3.update Sha3.create (Sha3.MBytes (fst (Sha3.digest record))) ;;
       subRecord <- Sha3.update Sha3.create (Sha3.MBytes (fst (Sha3.digest parent))) ;;
       sub <- Sha3.update Sha3.create (Sha3.MString subDomain) ;;
       subRecord <- Sha3.update subRecord (Sha3.MBytes (fst (Sha3.digest sub))) ;;
       Ok (fst (Sha3.hex subRecord))
   | _ => Ok (fst (Sha3.hex record))
   end)%result.

Record DataParams : Type := mkDataParams {
  dp_node : jsstring;
  dp_key : jsstring
}.

Record SetDataParams : Type := mkSetDataParams {
  sp_node : jsstring;
  sp_key : jsstring;
  sp_value : DomainStorageValue;
  sp_source : jsstring
}.

Record RemoveDataParams : Type := mkRemoveDataParams {
  rp_node : jsstring;
  rp_key : jsstring;
  rp_source : jsstring
}.

(** What [setDomainData] and [removeDomainData] resolve to. *)
Record Assembled : Type := mkAssembled {
  tx : Transaction;
  sim : SimulateTransactionResponse
}.

(** [this.global.defaultTimeout || 0]. *)
Definition timeout_or_0 (t : option Z) : Z :=
  match t with
  | Some t => if t =? 0 then 0 else t
  | None => 0
  end.

Section SorobanDomainsSDK.
Context {stellarSDK : StellarSDK} {decoder : BufferDecoder}.
Variable global : SorobanDomainsSDKParams.

(** The [TransactionBuilder] chain that each operation repeats around its one
    contract call. *)
Definition transaction_for (account : Account) (op : Operation) : Result Transaction :=
  (builder <- setTimeout (timeout_or_0 (defaultTimeout global))
                (new_TransactionBuilder account (network global) (defaultFee global)) ;;
   build (addOperation op builder))%result.

(** In the four operations the first [match] is the guard on the contract
    identifier: [!id] holds when it is not set and when it is the empty
    string. *)
Definition searchDomain (params : DomainParams) : Async RecordT :=
  match vaultsContractId global with
  | None | Some [] => Reject (JsError (lit "Vault's contract id was not provided"))
  | Some ((_ :: _) as vaultsContractId) =>
    (domainNode <- lift (parseDomain (mkDomainParams (domain params) (subDomain params))) ;;
     contract <- lift (new_Contract vaultsContractId) ;;
     let nodeBytes := scvBytes (JsBuffer (Buffer_from_hex domainNode)) in
     let record_key :=
       scvVec
         [scvSymbol
            (JsString
               (RecordKey_symbol
                  match subDomain params with
                  | Some (_ :: _) => RecordKey_SubRecord
                  | _ => RecordKey_Record
                  end));
          nodeBytes] in
     account <- rpc_getAccount (simulationAccount global) ;;
     transaction <- lift (transaction_for account (call contract (lit "record") [record_key])) ;;
     sim <- rpc_simulateTransaction transaction ;;
     if isSimulationError sim then Reject (JsError (sim_error sim))
     else
       retval <- lift (sim_result_retval sim) ;;
       let result := scValToNative retval in
       if negb (truthy result) then Reject Domain404Error
       else
         let member (f : Field) : Result JsVal :=
           (fields <- get_index result 1 ;; get_field fields f)%result in
         lift
           (tag <- get_index result 0 ;;
            if strict_eq_string tag (lit "Domain") then
              node <- (v <- member f_node ;; toString_hex v) ;;
              owner <- (v <- member f_owner ;; toString_hex v) ;;
              address <- member f_address ;;
              exp_date <- (v <- member f_exp_date ;; toString v) ;;
              snapshot <- (v <- member f_snapshot ;; toString v) ;;
              collateral <- (v <- member f_collateral ;; toString v) ;;
              Ok (mkRecord RecordType_Domain
                    (DomainValue
                       (Domain.mk node owner address exp_date snapshot collateral)))
            else
              node <- (v <- member f_node ;; toString_hex v) ;;
              parent <- (v <- member f_parent ;; toString_hex v) ;;
              address <- member f_address ;;
              snapshot <- (v <- member f_snapshot ;; toString v) ;;
              Ok (mkRecord RecordType_SubDomain
                    (SubDomainValue (SubDomain.mk node parent address snapshot))))%result
    )%async
  end.

Definition getDomainData (params : DataParams) : Async DomainStorageValue :=
  match valuesDatabaseContractId global with
  | None | Some [] => Reject (JsError (lit "KeyValue Database contract id was not provided"))
  | Some ((_ :: _) as valuesDatabaseContractId) =>
    (contract <- lift (new_Contract valuesDatabaseContractId) ;;
     let nodeBytes := scvBytes (JsBuffer (Buffer_from_hex (dp_node params))) in
     let keySymbol := scvSymbol (JsString (dp_key params)) in
     account <- rpc_getAccount (simulationAccount global) ;;
     transaction <-
       lift (transaction_for account (call contract (lit "get") [nodeBytes; keySymbol])) ;;
     sim <- rpc_simulateTransaction transaction ;;
     if isSimulationError sim then Reject (JsError (sim_error sim))
     else
       retval <- lift (sim_result_retval sim) ;;
       let result := scValToNative retval in
       if negb (truthy result) then Reject DomainData404Error
       else Resolve result
    )%async
  end.

(** The [switch (params.value[0])] of [setDomainData]. *)
Definition encode_value (v : DomainStorageValue) : Result ScVal :=
  (discriminant <- get_index v 0 ;;
   if strict_eq_string discriminant (lit "Bytes") then
     payload <- get_index v 1 ;;
     Ok (scvVec [scvSymbol (JsString (lit "Bytes")); scvBytes payload])
   else if strict_eq_string discriminant (lit "Number") then
     payload <- get_index v 1 ;;
     number <- nativeToScVal_i128 payload ;;
     Ok (scvVec [scvSymbol (JsString (lit "Number")); number])
   else if strict_eq_string discriminant (lit "String") then
     payload <- get_index v 1 ;;
     Ok (scvVec [scvSymbol (JsString (lit "String")); scvString payload])
   else Err DomainDataUnsupportedValueType)%result.

Definition setDomainData (params : SetDataParams) : Async Assembled :=
  match valuesDatabaseContractId global with
  | None | Some [] => Reject (JsError (lit "KeyValue Database contract id was not provided"))
  | Some ((_ :: _) as valuesDatabaseContractId) =>
    (contract <- lift (new_Contract valuesDatabaseContractId) ;;
     let nodeBytes := scvBytes (JsBuffer (Buffer_from_hex (sp_node params))) in
     let keySymbol := scvSymbol (JsString (sp_key params)) in
     value <- lift (encode_value (sp_value params)) ;;
     account <- rpc_getAccount (sp_source params) ;;
     transaction <-
       lift (transaction_for account
               (call contract (lit "set") [nodeBytes; keySymbol; value])) ;;
     sim <- rpc_simulateTransaction transaction ;;
     if isSimulationError sim then Reject (JsError (sim_error sim))
     else
       tx <- lift (assembleTransaction transaction sim) ;;
       Resolve (mkAssembled tx sim)
    )%async
  end.

Definition removeDomainData (params : RemoveDataParams) : Async Assembled :=
  match valuesDatabaseContractId global with
  | None | Some [] => Reject (JsError (lit "KeyValue Database contract id was not provided"))
  | Some ((_ :: _) as valuesDatabaseContractId) =>
    (contract <- lift (new_Contract valuesDatabaseContractId) ;;
     let nodeBytes := scvBytes (JsBuffer (Buffer_from_hex (rp_node params))) in
     let keySymbol := scvSymbol (JsString (rp_key params)) in
     account <- rpc_getAccount (rp_source params) ;;
     transaction <-
       lift (transaction_for account (call contract (lit "remove") [nodeBytes; keySymbol])) ;;
     sim <- rpc_simulateTransaction transaction ;;
     if isSimulationError sim then Reject (JsError (sim_error sim))
     else
       tx <- lift (assembleTransaction transaction sim) ;;
       Resolve (mkAssembled tx sim)
    )%async
  end.

End SorobanDomainsSDK.

(* ================================================================= *)
(** ** The node derivation as the specification words it *)

(** [rootDigest = Keccak256(Keccak256("xlm") ++ Keccak256(domain))]. *)
Definition rootDigest (d : jsstring) : list Z :=
  Keccak256 (Keccak256_string (lit "xlm") ++ Keccak256_string d).

(** [subDigest = Keccak256(Keccak256(rootDigest) ++ Keccak256(subDomain))]. *)
Definition subDigest (d s : jsstring) : list Z :=
  Keccak256 (Keccak256 (rootDigest d) ++ Keccak256_string s).

(** Lowercase hexadecimal digits: [0-9a-f]. *)
Definition is_lower_hex (c : Z) : bool :=
  ((48 <=? c) && (c <=? 57)) || ((97 <=? c) && (c <=? 102)).

(** The [record] call that addresses the table [key] at [node]. *)
Definition record_call (contract : jsstring) (key : RecordKey) (node : list Z) : Operation :=
  invokeContractFunction contract (lit "record")
    [scvVec [scvSymbol (JsString (RecordKey_symbol key)); scvBytes (JsBuffer node)]].

(** The node [parseDomain] derives, as bytes. *)
Definition nodeDigest (p : DomainParams) : list Z :=
  match subDomain p with
  | Some ((_ :: _) as s) => subDigest (domain p) s
  | _ => rootDigest (domain p)
  end.

(** What a successful lookup decodes, as the contract sends it: the pair of
    a variant tag and an object of fields. *)
Inductive WireRecord : Type :=
| WireDomain (node owner : list Z) (address : JsVal) (exp_date snapshot collateral : Z)
| WireSubDomain (tag : JsVal) (node parent : list Z) (address : JsVal) (snapshot : Z).

(** An integer as the decoder hands it over: a bigint, or a number. *)
Definition integer_like (v : JsVal) : option Z :=
  match v with
  | JsBigInt n | JsNumber n => Some n
  | _ => None
  end.

Definition integer_field (props : list (jsstring * JsVal)) (f : Field) : option Z :=
  match own_property props (field_name f) with
  | Some v => integer_like v
  | None => None
  end.

Definition wire_shape (decoded : JsVal) (w : WireRecord) : Prop :=
  exists tag props,
    decoded = JsArray [tag; JsObject props] /\
    match w with
    | WireDomain node owner address exp_date snapshot collateral =>
        tag = JsString (lit "Domain") /\
        own_property props (field_name f_node) = Some (JsBuffer node) /\
        own_property props (field_name f_owner) = Some (JsBuffer owner) /\
        own_property props (field_name f_address) = Some address /\
        integer_field props f_exp_date = Some exp_date /\
        integer_field props f_snapshot = Some snapshot /\
        integer_field props f_collateral = Some collateral
    | WireSubDomain other node parent address snapshot =>
        tag = other /\ other <> JsString (lit "Domain") /\
        own_property props (field_name f_node) = Some (JsBuffer node) /\
        own_property props (field_name f_parent) = Some (JsBuffer parent) /\
        own_property props (field_name f_address) = Some address /\
        integer_field props f_snapshot = Some snapshot
    end.

(** The record the specification promises for it: byte fields in
    hexadecimal, integers in decimal. *)
Definition record_of (w : WireRecord) : RecordT :=
  match w with
  | WireDomain node owner address exp_date snapshot collateral =>
      mkRecord RecordType_Domain
        (DomainValue
           (Domain.mk (hexSlice node) (hexSlice owner) address
              (decimal exp_date) (decimal snapshot) (decimal collateral)))
  | WireSubDomain _ node parent address snapshot =>
      mkRecord RecordType_SubDomain
        (SubDomainValue
           (SubDomain.mk (hexSlice node) (hexSlice parent) address (decimal snapshot)))
  end.

(** The discriminants [setDomainData] encodes. *)
Definition supported_discriminant (v : JsVal) : Prop :=
  v = JsString (lit "Bytes") \/ v = JsString (lit "Number") \/ v = JsString (lit "String").

(* ================================================================= *)
(** ** A ledger SDK, a configuration and RPC servers to run the code on *)

Definition sample_key (v : JsVal) : jsstring :=
  match v with
  | JsString s => s
  | _ => []
  end.

Fixpoint sample_scValToNative (v : ScVal) : JsVal :=
  match v with
  | scvVoid => JsNull
  | scvBool b => JsBool b
  | scvU32 n | scvI32 n => JsNumber n
  | scvU64 n | scvI64 n | scvU128 n | scvI128 n => JsBigInt n
  | scvBytes x | scvString x | scvSymbol x => x
  | scvAddress a => JsString a
  | scvVec items => JsArray (map sample_scValToNative items)
  | scvMap entries =>
      JsObject
        (map (fun kv => (sample_key (sample_scValToNative (fst kv)),
                         sample_scValToNative (snd kv))) entries)
  end.

(** [BigInt(s)] on a string of decimal digits with an optional sign. *)
Fixpoint sample_digits (s : jsstring) (acc : Z) : option Z :=
  match s with
  | [] => Some acc
  | c :: rest =>
      if (48 <=? c) && (c <=? 57) then sample_digits rest (10 * acc + (c - 48)) else None
  end.

Definition sample_BigInt (s : jsstring) : Result Z :=
  match s with
  | 45 :: (_ :: _) as digits =>
      match sample_digits digits 0 with
      | Some n => Ok (- n)
      | None => Err JsSyntaxError
      end
  | _ =>
      match sample_digits s 0 with
      | Some n => Ok n
      | None => Err JsSyntaxError
      end
  end.

(** [nativeToScVal(v, { type: 'i128' })] on the scalars: an integer or a
    numeric string becomes an i128, a string that is not a number is refused
    by [BigInt], a boolean, [null] and [undefined] ignore the type. The
    sample does not convert containers. *)
Definition sample_nativeToScVal_i128 (v : JsVal) : Result ScVal :=
  match v with
  | JsBigInt n | JsNumber n => Ok (scvI128 n)
  | JsString s => (n <- sample_BigInt s ;; Ok (scvI128 n))%result
  | JsBool b => Ok (scvBool b)
  | JsNull | JsUndefined => Ok scvVoid
  | JsBuffer bytes => Ok (scvBytes (JsBuffer bytes))
  | JsArrayBuffer | JsArray _ | JsObject _ => Err JsTypeError
  end.

(** [StrKey.decodeContract]: base32 without padding, in its canonical form
    only; a version byte, which is 16 for a contract; the payload; the
    CRC16-XModem of version and payload, low byte first. *)
Definition base32_value (c : Z) : option Z :=
  if (65 <=? c) && (c <=? 90) then Some (c - 65)
  else if (50 <=? c) && (c <=? 55) then Some (c - 24)
  else None.

Fixpoint base32_number (s : jsstring) (acc : Z) : option Z :=
  match s with
  | [] => Some acc
  | c :: rest =>
      match base32_value c with
      | Some v => base32_number rest (32 * acc + v)
      | None => None
      end
  end.

Fixpoint big_endian (n : nat) (x : Z) : list Z :=
  match n with
  | O => []
  | S n' => big_endian n' (Z.shiftr x 8) ++ [Z.land x 0xFF]
  end.

Definition base32_decode (s : jsstring) : option (list Z) :=
  let bits := 5 * Z.of_nat (List.length s) in
  let spare := bits mod 8 in
  match base32_number s 0 with
  | Some x =>
      if (spare <? 5) && (Z.land x (Z.ones spare) =? 0)
      then Some (big_endian (Z.to_nat (bits / 8)) (Z.shiftr x spare))
      else None
  | None => None
  end.

Fixpoint crc16_shift (n : nat) (crc : Z) : Z :=
  match n with
  | O => crc
  | S n' =>
      crc16_shift n'
        (Z.land
           (if Z.testbit crc 15 then Z.lxor (Z.shiftl crc 1) 0x1021 else Z.shiftl crc 1)
           0xFFFF)
  end.

Definition crc16_xmodem (bytes : list Z) : Z :=
  fold_left (fun crc b => crc16_shift 8 (Z.lxor crc (Z.shiftl b 8))) bytes 0.

Definition sample_decodeContract (id : jsstring) : option (list Z) :=
  match base32_decode id with
  | Some decoded =>
      let n := (List.length decoded - 2)%nat in
      let payload := firstn n decoded in
      match payload, skipn n decoded with
      | version :: data, [low; high] =>
          if (version =? 16) && (crc16_xmodem payload =? low + 256 * high)
          then Some data
          else None
      | _, _ => None
      end
  | None => None
  end.

#[local] Instance sample_sdk : StellarSDK := {|
  scValToNative := sample_scValToNative;
  nativeToScVal_i128 := sample_nativeToScVal_i128;
  assembleTransaction := fun tx _ => Ok tx;
  decodeContract := sample_decodeContract;
  build_throws := fun _ => None
|}.

(** Two contract identifiers and four account identifiers, all of them
    well-formed strkeys. *)
Definition vaults_id : jsstring :=
  lit "CAAQEAYEAUDAOCAJBIFQYDIOB4IBCEQTCQKRMFYYDENBWHA5DYPSBFLM".
Definition values_id : jsstring :=
  lit "CAAAAAAAAAAAAAAAAAAAAAAAAAAAAAAAAAAAAAAAAAAAAAAAAAAABSC4".
Definition simulation_account : jsstring :=
  lit "GAAAAAAAAAAAAAAAAAAAAAAAAAAAAAAAAAAAAAAAAAAAAAAAAAAAAWHF".
Definition source_account : jsstring :=
  lit "GAAACAQDAQCQMBYIBEFAWDANBYHRAEISCMKBKFQXDAMRUGY4DUPB7JZX".
Definition resolved_address : jsstring :=
  lit "GAQCCIRDEQSSMJZIFEVCWLBNFYXTAMJSGM2DKNRXHA4TUOZ4HU7D6R3A".
Definition owner_address : jsstring :=
  lit "GAAZI4TCR3TY5OJHCTJC2A4QSY6CJWJH5IAJTGKIN2ER7LBNVKOCCWN7".

#[local] Instance sample_decoder : BufferDecoder := fun bytes => bytes.

Definition sample_global : SorobanDomainsSDKParams :=
  mkParams (lit "Test SDF Network ; September 2015") simulation_account
    (Some vaults_id) (Some values_id) (lit "100") None.

(** The same configuration without its two contract identifiers. *)
Definition bare_global : SorobanDomainsSDKParams :=
  mkParams (lit "Test SDF Network ; September 2015") simulation_account
    None None (lit "100") None.

(** A server that knows every account and answers every simulation with
    [sim]. *)
Definition sample_server (sim : SimulateTransactionResponse) : Server :=
  mkServer (fun address => Ok (mkAccount address 7)) (fun _ => Ok sim).

Definition returns (v : ScVal) : SimulateTransactionResponse :=
  SimulateTransactionSuccessResponse (Some (mkSimResult v)).

Definition symbol (s : string) : ScVal := scvSymbol (JsString (lit s)).

Definition sample_domain : ScVal :=
  scvVec
    [symbol "Domain";
     scvMap
       [(symbol "address", scvAddress resolved_address);
        (symbol "collateral", scvU128 125000000);
        (symbol "exp_date", scvU64 1735689600);
        (symbol "node", scvBytes (JsBuffer [171; 205; 1]));
        (symbol "owner", scvBytes (JsBuffer [0; 255]));
        (symbol "snapshot", scvU64 1704067200)]].

Definition sample_subdomain : ScVal :=
  scvVec
    [symbol "SubDomain";
     scvMap
       [(symbol "address", scvAddress resolved_address);
        (symbol "node", scvBytes (JsBuffer [18; 52]));
        (symbol "parent", scvBytes (JsBuffer [171; 205; 1]));
        (symbol "snapshot", scvU64 1704067200)]].

Definition example_params : DomainParams := mkDomainParams (lit "example") None.
Definition example_sub_params : DomainParams :=
  mkDomainParams (lit "example") (Some (lit "sub")).
Definition example_empty_sub_params : DomainParams :=
  mkDomainParams (lit "example") (Some []).

Definition example_data_params : DataParams := mkDataParams (lit "00ff") (lit "website").
Definition example_set_params (v : DomainStorageValue) : SetDataParams :=
  mkSetDataParams (lit "00ff") (lit "website") v source_account.
Definition example_remove_params : RemoveDataParams :=
  mkRemoveDataParams (lit "00ff") (lit "website") source_account.

(** The transaction an operation builds for [sample_global] around [op], from
    the account the sample server returns for [source]. *)
Definition example_tx (source : jsstring) (op : Operation) : Transaction :=
  mkTransaction (mkAccount source 7) (network sample_global) (defaultFee sample_global)
    0 [op].

Definition example_record_tx : Transaction :=
  example_tx simulation_account
    (record_call vaults_id RecordKey_Record (rootDigest (lit "example"))).


Definition example_get_tx : Transaction :=
  example_tx simulation_account
    (invokeContractFunction values_id (lit "get")
       [scvBytes (JsBuffer [0; 255]); symbol "website"]).

Definition example_string_value : DomainStorageValue :=
  JsArray [JsString (lit "String"); JsString (lit "https://example.org")].

Definition example_address_value : DomainStorageValue :=
  JsArray [JsString (lit "Address"); JsString resolved_address].

Definition example_set_tx : Transaction :=
  example_tx source_account
    (invokeContractFunction values_id (lit "set")
       [scvBytes (JsBuffer [0; 255]); symbol "website";
        scvVec [symbol "String"; scvString (JsString (lit "https://example.org"))]]).

Definition example_remove_tx : Transaction :=
  example_tx source_account
    (invokeContractFunction values_id (lit "remove")
       [scvBytes (JsBuffer [0; 255]); symbol "website"]).

Definition host_error : SimulateTransactionResponse :=
  SimulateTransactionErrorResponse (lit "HostError: Error(Contract, #1)").

(* ================================================================= *)
(** ** Shapes and servers for the further properties *)

(** What an operation may have sent to the RPC client: nothing, the fetch of
    [account] alone, or that fetch followed by one simulation. *)
Definition request_discipline (account : jsstring) (reqs : list Request) : Prop :=
  reqs = [] \/
  reqs = [ReqGetAccount account] \/
  exists t, reqs = [ReqGetAccount account; ReqSimulateTransaction t].

(** The envelope [TransactionBuilder] puts around the one operation. *)
Definition enveloped (global : SorobanDomainsSDKParams) (account : Account)
           (op : Operation) (t : Transaction) : Prop :=
  tx_source t = account /\
  tx_networkPassphrase t = network global /\
  tx_fee t = defaultFee global /\
  tx_timeout t = match defaultTimeout global with Some n => n | None => 0 end /\
  tx_operations t = [op].

(** A field that [toString('hex')] renders: the bytes of a [Buffer] in
    hexadecimal, a string as it is. *)
Definition rendered_hex (v : JsVal) : option jsstring :=
  match v with
  | JsBuffer bytes => Some (hexSlice bytes)
  | JsString s => Some s
  | _ => None
  end.

(** A field that [toString()] renders: an integer in decimal, a string as it
    is. *)
Definition rendered_decimal (v : JsVal) : option jsstring :=
  match v with
  | JsBigInt n | JsNumber n => Some (decimal n)
  | JsString s => Some s
  | _ => None
  end.

Definition rendered_field (render : JsVal -> option jsstring)
           (props : list (jsstring * JsVal)) (f : Field) : option jsstring :=
  match own_property props (field_name f) with
  | Some v => render v
  | None => None
  end.

(** The tag and the value of a record belong to the same variant. *)
Definition coherent (r : RecordT) : Prop :=
  match value r with
  | DomainValue _ => type r = RecordType_Domain
  | SubDomainValue _ => type r = RecordType_SubDomain
  end.

(** A server that knows no account, and one whose simulation endpoint cannot
    be reached. *)
Definition account_not_found : Error := JsError (lit "Account not found").
Definition unreachable : Error := JsError (lit "socket hang up").

Definition offline_server : Server :=
  mkServer (fun _ => Err account_not_found) (fun _ => Err unreachable).

Definition flaky_server : Server :=
  mkServer (fun address => Ok (mkAccount address 7)) (fun _ => Err unreachable).

(** A domain as the deployed contract returns it: the owner is an address,
    which the decoder gives as a string. *)
Definition sample_owned_domain : ScVal :=
  scvVec
    [symbol "Domain";
     scvMap
       [(symbol "address", scvAddress resolved_address);
        (symbol "collateral", scvU128 125000000);
        (symbol "exp_date", scvU64 1735689600);
        (symbol "node", scvBytes (JsBuffer [171; 205; 1]));
        (symbol "owner", scvAddress owner_address);
        (symbol "snapshot", scvU64 1704067200)]].

Definition sample_stored_value : ScVal :=
  scvVec [symbol "String"; scvString (JsString (lit "https://example.org"))].

Definition empty_id_global : SorobanDomainsSDKParams :=
  mkParams (lit "Test SDF Network ; September 2015") simulation_account
    (Some []) (Some []) (lit "100") None.

Definition example_node_params : DataParams :=
  mkDataParams (lit "dc75a4bce9e729fa81f394f85e2d09e0e47d7b0b2f3bbd5ffe8aef88cedb9eca")
    (lit "website").

Definition example_node_get_tx : Transaction :=
  example_tx simulation_account
    (invokeContractFunction values_id (lit "get")
       [scvBytes (JsBuffer (rootDigest (lit "example"))); symbol "website"]).

(** The synchronous end of each operation, after the simulation has been
    answered with [sim]: lines 66 to 98 of [searchDomain], 122 to 132 of
    [getDomainData], 186 to 193 and 220 to 227 of [setDomainData] and
    [removeDomainData]. *)
Definition record_of_result {decoder : BufferDecoder} (result : JsVal) : Result RecordT :=
  let member (f : Field) : Result JsVal :=
    (fields <- get_index result 1 ;; get_field fields f)%result in
  (tag <- get_index result 0 ;;
   if strict_eq_string tag (lit "Domain") then
     node <- (v <- member f_node ;; toString_hex v) ;;
     owner <- (v <- member f_owner ;; toString_hex v) ;;
     address <- member f_address ;;
     exp_date <- (v <- member f_exp_date ;; toString v) ;;
     snapshot <- (v <- member f_snapshot ;; toString v) ;;
     collateral <- (v <- member f_collateral ;; toString v) ;;
     Ok (mkRecord RecordType_Domain
           (DomainValue (Domain.mk node owner address exp_date snapshot collateral)))
   else
     node <- (v <- member f_node ;; toString_hex v) ;;
     parent <- (v <- member f_parent ;; toString_hex v) ;;
     address <- member f_address ;;
     snapshot <- (v <- member f_snapshot ;; toString v) ;;
     Ok (mkRecord RecordType_SubDomain
           (SubDomainValue (SubDomain.mk node parent address snapshot))))%result.

Definition searchDomain_end {stellarSDK : StellarSDK} {decoder : BufferDecoder}
           (sim : SimulateTransactionResponse) : Result RecordT :=
  if isSimulationError sim then Err (JsError (sim_error sim))
  else
    (retval <- sim_result_retval sim ;;
     if negb (truthy (scValToNative retval)) then Err Domain404Error
     else record_of_result (scValToNative retval))%result.

Definition getDomainData_end {stellarSDK : StellarSDK}
           (sim : SimulateTransactionResponse) : Result DomainStorageValue :=
  if isSimulationError sim then Err (JsError (sim_error sim))
  else
    (retval <- sim_result_retval sim ;;
     if negb (truthy (scValToNative retval)) then Err DomainData404Error
     else Ok (scValToNative retval))%result.

Definition assemble_end {stellarSDK : StellarSDK}
           (transaction : Transaction) (sim : SimulateTransactionResponse) : Result Assembled :=
  if isSimulationError sim then Err (JsError (sim_error sim))
  else (tx <- assembleTransaction transaction sim ;; Ok (mkAssembled tx sim))%result.

Definition no_result : SimulateTransactionResponse :=
  SimulateTransactionSuccessResponse None.

Definition example_number_value : DomainStorageValue :=
  JsArray [JsString (lit "Number"); JsString (lit "twelve")].

Definition example_owned_record : RecordT :=
  mkRecord RecordType_Domain
    (DomainValue
       (Domain.mk (lit "abcd01") owner_address (JsString resolved_address)
          (lit "1735689600") (lit "1704067200") (lit "125000000"))).

(** What the four operations have in common once their call is prepared:
    the fetch of the account, the building of the transaction around the
    call, its simulation, and the synchronous end. *)
Definition round_trip {stellarSDK : StellarSDK} {A : Type}
           (global : SorobanDomainsSDKParams) (rpc : Server) (account_id : jsstring)
           (prepared : Result Operation)
           (finish : Transaction -> SimulateTransactionResponse -> Result A)
  : list Request * Result A :=
  match prepared with
  | Err e => ([], Err e)
  | Ok op =>
      match getAccount rpc account_id with
      | Err e => ([ReqGetAccount account_id], Err e)
      | Ok account =>
          match transaction_for global account op with
          | Err e => ([ReqGetAccount account_id], Err e)
          | Ok transaction =>
              ([ReqGetAccount account_id; ReqSimulateTransaction transaction],
               match simulateTransaction rpc transaction with
               | Err e => Err e
               | Ok sim => finish transaction sim
               end)
          end
      end
  end.

(* ================================================================= *)
(** ** Hashing, hexadecimal encoding and decoding *)

(** The sponge above on two published Keccak-256 test vectors. *)
Example keccak256_of_empty :
  Sha3.hex_of_bytes (Keccak256 []) =
  lit "c5d2460186f7233c927e7db2dcc703c0e500b653ca82273b7bfad8045d85a470".
Proof. vm_compute. reflexivity. Qed.

Example keccak256_of_abc :
  Sha3.hex_of_bytes (Keccak256_string (lit "abc")) =
  lit "4e03657aea45a94fc7d47ba826c8d667c0d1e6e33a64a036ec44f58fa12d6c45".
Proof. vm_compute. reflexivity. Qed.

Lemma update_fresh (bs : list Z) (m : Sha3.Message) :
  Sha3.update (Sha3.mkHasher bs false) m = Ok (Sha3.mkHasher (bs ++ Sha3.formatMessage m) false).
Proof. reflexivity. Qed.

Lemma update_create (m : Sha3.Message) :
  Sha3.update Sha3.create m = Ok (Sha3.mkHasher (Sha3.formatMessage m) false).
Proof. reflexivity. Qed.

Ltac hasher_step :=
  first [rewrite update_create | rewrite update_fresh];
  cbn [rbind Sha3.digest fst Sha3.absorbed Sha3.formatMessage app].

Lemma parseDomain_eq (p : DomainParams) :
  parseDomain p = Ok (Sha3.hex_of_bytes (nodeDigest p)).
Proof.
  unfold parseDomain, nodeDigest, subDigest, rootDigest, Keccak256, Keccak256_string.
  do 4 hasher_step.
  destruct (subDomain p) as [[|c s]|]; reflexivity.
Qed.

Lemma keccak256_length (m : list Z) : List.length (Keccak.keccak256 m) = 32%nat.
Proof.
  unfold Keccak.keccak256, Keccak.squeeze, Keccak.lane_bytes.
  rewrite !length_app, !length_map. reflexivity.
Qed.

Lemma lane_bytes_range (l : Z) : Forall (fun b => 0 <= b < 256) (Keccak.lane_bytes l).
Proof.
  unfold Keccak.lane_bytes. apply Forall_forall. intros b Hb.
  apply in_map_iff in Hb. destruct Hb as [k [<- _]].
  change 255 with (Z.ones 8). rewrite Z.land_ones by lia.
  apply Z.mod_pos_bound. lia.
Qed.

Lemma keccak256_bytes (m : list Z) : Forall (fun b => 0 <= b < 256) (Keccak.keccak256 m).
Proof.
  unfold Keccak.keccak256, Keccak.squeeze.
  repeat (apply Forall_app; split); apply lane_bytes_range.
Qed.

Lemma nibble_range (x : Z) : 0 <= Z.land x 0x0F < 16.
Proof.
  change 0x0F with (Z.ones 4). rewrite Z.land_ones by lia.
  apply Z.mod_pos_bound. lia.
Qed.

Lemma HEX_CHARS_table (k : nat) :
  (k < 16)%nat ->
  is_lower_hex (nth k Sha3.HEX_CHARS 0) = true /\
  hex_digit (nth k Sha3.HEX_CHARS 0) = Some (Z.of_nat k).
Proof.
  intros Hk. do 16 (destruct k as [|k]; [split; reflexivity|]). lia.
Qed.

Lemma HEX_CHARS_lower (n : Z) :
  0 <= n < 16 -> is_lower_hex (nth (Z.to_nat n) Sha3.HEX_CHARS 0) = true.
Proof. intros H. apply HEX_CHARS_table. lia. Qed.

Lemma hex_of_bytes_lower (bs : list Z) :
  forallb is_lower_hex (Sha3.hex_of_bytes bs) = true.
Proof.
  induction bs as [|b bs IH]; [reflexivity|].
  cbn [Sha3.hex_of_bytes flat_map]. fold (Sha3.hex_of_bytes bs).
  rewrite forallb_app, IH, andb_true_r.
  cbn [Sha3.hex_byte forallb]. rewrite !HEX_CHARS_lower by apply nibble_range.
  reflexivity.
Qed.

Lemma hex_of_bytes_length (bs : list Z) :
  List.length (Sha3.hex_of_bytes bs) = (2 * List.length bs)%nat.
Proof.
  induction bs as [|b bs IH]; [reflexivity|].
  cbn [Sha3.hex_of_bytes flat_map]. fold (Sha3.hex_of_bytes bs).
  rewrite length_app, IH. cbn [Sha3.hex_byte List.length]. lia.
Qed.

Lemma hex_digit_HEX_CHARS (n : Z) :
  0 <= n < 16 -> hex_digit (nth (Z.to_nat n) Sha3.HEX_CHARS 0) = Some n.
Proof.
  intros H. destruct (HEX_CHARS_table (Z.to_nat n)) as [_ E]; [lia|].
  rewrite E, Z2Nat.id by lia. reflexivity.
Qed.

Lemma nibbles_of_byte (b : Z) :
  0 <= b < 256 -> 16 * Z.land (Z.shiftr b 4) 0x0F + Z.land b 0x0F = b.
Proof.
  intros H. change 0x0F with (Z.ones 4). rewrite !Z.land_ones by lia.
  rewrite Z.shiftr_div_pow2 by lia. change (2 ^ 4) with 16.
  rewrite (Z.mod_small (b / 16) 16) by (split; [apply Z.div_pos; lia | apply Z.div_lt_upper_bound; lia]).
  symmetry. apply Z.div_mod. lia.
Qed.

Lemma HEX_CHARS_low_byte (n : Z) :
  0 <= n < 16 ->
  Z.land (nth (Z.to_nat n) Sha3.HEX_CHARS 0) 0xFF = nth (Z.to_nat n) Sha3.HEX_CHARS 0.
Proof.
  intros H. assert (Hk : (Z.to_nat n < 16)%nat) by lia.
  revert Hk. generalize (Z.to_nat n) as k. intros k Hk.
  do 16 (destruct k as [|k]; [reflexivity|]). lia.
Qed.

Lemma Buffer_from_hex_of_bytes (bs : list Z) :
  Forall (fun b => 0 <= b < 256) bs -> Buffer_from_hex (Sha3.hex_of_bytes bs) = bs.
Proof.
  induction 1 as [|b bs Hb _ IH]; [reflexivity|].
  cbn [Sha3.hex_of_bytes flat_map Sha3.hex_byte app]. fold (Sha3.hex_of_bytes bs).
  cbn [Buffer_from_hex].
  rewrite !HEX_CHARS_low_byte by apply nibble_range.
  rewrite !hex_digit_HEX_CHARS by apply nibble_range.
  rewrite IH, nibbles_of_byte by assumption. reflexivity.
Qed.

(* ================================================================= *)
(** ** Running an operation *)

Section RunLemmas.
Context {A B : Type}.
Variable rpc : Server.

Lemma run_lift (r : Result A) : run rpc (lift r) = ([], r).
Proof. destruct r; reflexivity. Qed.

Lemma requests_lift (r : Result A) : requests rpc (lift r) = [].
Proof. unfold requests. rewrite run_lift. reflexivity. Qed.

Lemma outcome_lift (r : Result A) : outcome rpc (lift r) = r.
Proof. unfold outcome. rewrite run_lift. reflexivity. Qed.

Lemma requests_bind_lift (r : Result A) (k : A -> Async B) :
  requests rpc (abind (lift r) k) =
  match r with
  | Ok a => requests rpc (k a)
  | Err _ => []
  end.
Proof. destruct r; reflexivity. Qed.

Lemma outcome_bind_lift (r : Result A) (k : A -> Async B) :
  outcome rpc (abind (lift r) k) =
  match r with
  | Ok a => outcome rpc (k a)
  | Err e => Err e
  end.
Proof. destruct r; reflexivity. Qed.

Lemma requests_getAccount (address : jsstring) (k : Account -> Async B) :
  requests rpc (abind (rpc_getAccount address) k) =
  ReqGetAccount address ::
  match getAccount rpc address with
  | Ok account => requests rpc (k account)
  | Err _ => []
  end.
Proof.
  unfold requests. cbn [rpc_getAccount abind run].
  destruct (getAccount rpc address); [|reflexivity].
  destruct (run rpc (k a)). reflexivity.
Qed.

Lemma outcome_getAccount (address : jsstring) (k : Account -> Async B) :
  outcome rpc (abind (rpc_getAccount address) k) =
  match getAccount rpc address with
  | Ok account => outcome rpc (k account)
  | Err e => Err e
  end.
Proof.
  unfold outcome. cbn [rpc_getAccount abind run].
  destruct (getAccount rpc address); [|reflexivity].
  destruct (run rpc (k a)). reflexivity.
Qed.

Lemma requests_simulateTransaction (t : Transaction)
      (k : SimulateTransactionResponse -> Async B) :
  requests rpc (abind (rpc_simulateTransaction t) k) =
  ReqSimulateTransaction t ::
  match simulateTransaction rpc t with
  | Ok sim => requests rpc (k sim)
  | Err _ => []
  end.
Proof.
  unfold requests. cbn [rpc_simulateTransaction abind run].
  destruct (simulateTransaction rpc t); [|reflexivity].
  destruct (run rpc (k a)). reflexivity.
Qed.

Lemma outcome_simulateTransaction (t : Transaction)
      (k : SimulateTransactionResponse -> Async B) :
  outcome rpc (abind (rpc_simulateTransaction t) k) =
  match simulateTransaction rpc t with
  | Ok sim => outcome rpc (k sim)
  | Err e => Err e
  end.
Proof.
  unfold outcome. cbn [rpc_simulateTransaction abind run].
  destruct (simulateTransaction rpc t); [|reflexivity].
  destruct (run rpc (k a)). reflexivity.
Qed.

End RunLemmas.

Lemma run_pair {A : Type} (rpc : Server) (m : Async A) :
  run rpc m = (requests rpc m, outcome rpc m).
Proof. unfold requests, outcome. destruct (run rpc m). reflexivity. Qed.

Lemma rbind_Ok {A B : Type} (r : Result A) (k : A -> Result B) (b : B) :
  rbind r k = Ok b -> exists a, r = Ok a /\ k a = Ok b.
Proof. destruct r as [a|e]; [|discriminate]. intros H. exists a. split; [reflexivity | exact H]. Qed.

Lemma nodeDigest_bytes (p : DomainParams) : Forall (fun b => 0 <= b < 256) (nodeDigest p).
Proof.
  unfold nodeDigest, subDigest, rootDigest, Keccak256.
  destruct (subDomain p) as [[|c s]|]; apply keccak256_bytes.
Qed.

Lemma nodeDigest_eta (p : DomainParams) :
  nodeDigest (mkDomainParams (domain p) (subDomain p)) = nodeDigest p.
Proof. destruct p. reflexivity. Qed.

Lemma nodeDigest_length (p : DomainParams) : List.length (nodeDigest p) = 32%nat.
Proof.
  unfold nodeDigest, subDigest, rootDigest, Keccak256.
  destruct (subDomain p) as [[|c s]|]; apply keccak256_length.
Qed.

#[local] Opaque Keccak.keccak256 Sha3.utf8 Sha3.hex_of_bytes Buffer_from_hex.

Ltac found_request H :=
  cbn [In fst] in H;
  repeat match type of H with
         | _ \/ _ => destruct H as [H | H]
         | False => destruct H
         | ReqGetAccount _ = ReqSimulateTransaction _ => discriminate H
         | ReqSimulateTransaction _ = ReqGetAccount _ => discriminate H
         | ReqSimulateTransaction _ = ReqSimulateTransaction _ => injection H as H
         | ReqGetAccount _ = ReqGetAccount _ => injection H as H
         end.

Section RoundTrip.
Context {stellarSDK : StellarSDK} {A : Type}.
Variable global : SorobanDomainsSDKParams.
Variable rpc : Server.
Variable account_id : jsstring.
Variable prepared : Result Operation.
Variable finish : Transaction -> SimulateTransactionResponse -> Result A.

Lemma round_trip_complete (op : Operation) (account : Account) (t : Transaction) :
  prepared = Ok op ->
  getAccount rpc account_id = Ok account ->
  transaction_for global account op = Ok t ->
  round_trip global rpc account_id prepared finish =
  ([ReqGetAccount account_id; ReqSimulateTransaction t],
   match simulateTransaction rpc t with
   | Err e => Err e
   | Ok sim => finish t sim
   end).
Proof. unfold round_trip. intros -> -> ->. reflexivity. Qed.

Lemma round_trip_simulated (t : Transaction) :
  In (ReqSimulateTransaction t) (fst (round_trip global rpc account_id prepared finish)) ->
  exists op account,
    prepared = Ok op /\
    getAccount rpc account_id = Ok account /\
    transaction_for global account op = Ok t.
Proof.
  unfold round_trip.
  destruct prepared as [op|e]; [|intros []].
  destruct (getAccount rpc account_id) as [account|e]; [|intros H; found_request H].
  destruct (transaction_for global account op) as [t'|e] eqn:E;
    intros H; found_request H.
  subst t'. exists op, account. repeat split. exact E.
Qed.

Lemma round_trip_settles (t : Transaction) :
  In (ReqSimulateTransaction t) (fst (round_trip global rpc account_id prepared finish)) ->
  snd (round_trip global rpc account_id prepared finish) =
  match simulateTransaction rpc t with
  | Err e => Err e
  | Ok sim => finish t sim
  end.
Proof.
  intros H. destruct (round_trip_simulated t H) as (op & account & Hop & Hacc & Ht).
  rewrite (round_trip_complete op account t Hop Hacc Ht). reflexivity.
Qed.

Lemma round_trip_discipline :
  request_discipline account_id (fst (round_trip global rpc account_id prepared finish)).
Proof.
  unfold round_trip, request_discipline.
  destruct prepared as [op|e]; [|left; reflexivity].
  destruct (getAccount rpc account_id) as [account|e]; [|right; left; reflexivity].
  destruct (transaction_for global account op) as [t|e]; [|right; left; reflexivity].
  right; right. exists t. reflexivity.
Qed.

Lemma round_trip_account_rejected (a : jsstring) (e : Error) :
  In (ReqGetAccount a) (fst (round_trip global rpc account_id prepared finish)) ->
  getAccount rpc a = Err e ->
  round_trip global rpc account_id prepared finish = ([ReqGetAccount a], Err e).
Proof.
  unfold round_trip.
  destruct prepared as [op|e']; [|intros []].
  destruct (getAccount rpc account_id) as [account|e'] eqn:E.
  - destruct (transaction_for global account op);
      intros H Hrej; found_request H; subst a; rewrite E in Hrej; discriminate Hrej.
  - intros H Hrej; found_request H; subst a. rewrite E in Hrej. injection Hrej as ->.
    reflexivity.
Qed.

Lemma round_trip_resolved (x : A) :
  snd (round_trip global rpc account_id prepared finish) = Ok x ->
  exists op account t sim,
    prepared = Ok op /\
    getAccount rpc account_id = Ok account /\
    transaction_for global account op = Ok t /\
    fst (round_trip global rpc account_id prepared finish) = [ReqGetAccount account_id; ReqSimulateTransaction t] /\
    simulateTransaction rpc t = Ok sim /\
    finish t sim = Ok x.
Proof.
  unfold round_trip.
  destruct prepared as [op|e]; [|discriminate].
  destruct (getAccount rpc account_id) as [account|e] eqn:Hacc; [|discriminate].
  destruct (transaction_for global account op) as [t|e] eqn:Ht; [|discriminate].
  cbn [fst snd].
  destruct (simulateTransaction rpc t) as [sim|e] eqn:Hsim; [|discriminate].
  intros H. exists op, account, t, sim. repeat split; assumption.
Qed.

End RoundTrip.

(** [new Contract(id)] succeeds exactly on the identifiers that
    [StrKey.decodeContract] accepts. *)
Lemma new_Contract_Ok {stellarSDK : StellarSDK} (id : jsstring) (c : Contract) :
  new_Contract id = Ok c -> decodeContract id <> None /\ c = mkContract id.
Proof.
  unfold new_Contract. destruct (decodeContract id); [|discriminate].
  intros [= <-]. split; [discriminate | reflexivity].
Qed.

Lemma new_Contract_decoded {stellarSDK : StellarSDK} (id : jsstring) :
  decodeContract id <> None -> new_Contract id = Ok (mkContract id).
Proof.
  unfold new_Contract. destruct (decodeContract id); [reflexivity | contradiction].
Qed.

Lemma new_Contract_refused {stellarSDK : StellarSDK} (id : jsstring) :
  decodeContract id = None ->
  new_Contract id = Err (JsError (lit "Invalid contract ID: " ++ id)).
Proof. unfold new_Contract. intros ->. reflexivity. Qed.

Lemma strict_eq_string_refl (s : jsstring) : strict_eq_string (JsString s) s = true.
Proof.
  unfold strict_eq_string, jsstring_eqb.
  destruct (list_eq_dec Z.eq_dec s s); [reflexivity | contradiction].
Qed.

Lemma strict_eq_string_true (v : JsVal) (s : jsstring) :
  strict_eq_string v s = true -> v = JsString s.
Proof.
  destruct v; try discriminate. unfold strict_eq_string, jsstring_eqb.
  destruct (list_eq_dec Z.eq_dec s0 s); [congruence | discriminate].
Qed.

Lemma strict_eq_string_false (v : JsVal) (s : jsstring) :
  v <> JsString s -> strict_eq_string v s = false.
Proof.
  intros H. destruct (strict_eq_string v s) eqn:E; [|reflexivity].
  apply strict_eq_string_true in E. contradiction.
Qed.

Lemma toString_integer {decoder : BufferDecoder} (v : JsVal) (n : Z) :
  integer_like v = Some n -> toString v = Ok (decimal n).
Proof. destruct v; try discriminate; intros [= ->]; reflexivity. Qed.

Lemma get_integer_field {decoder : BufferDecoder} (props : list (jsstring * JsVal))
      (f : Field) (n : Z) :
  integer_field props f = Some n ->
  (v <- get_field (JsObject props) f ;; toString v)%result = Ok (decimal n).
Proof.
  unfold integer_field. cbn [get_field].
  destruct (own_property props (field_name f)) as [v|]; [|discriminate].
  intros H. cbn [or_undefined rbind]. apply toString_integer, H.
Qed.

Lemma get_bytes_field {decoder : BufferDecoder} (props : list (jsstring * JsVal))
      (f : Field) (bytes : list Z) :
  own_property props (field_name f) = Some (JsBuffer bytes) ->
  (v <- get_field (JsObject props) f ;; toString_hex v)%result = Ok (hexSlice bytes).
Proof. cbn [get_field]. intros ->. reflexivity. Qed.

Lemma get_own_field (props : list (jsstring * JsVal)) (f : Field) (v : JsVal) :
  own_property props (field_name f) = Some v -> get_field (JsObject props) f = Ok v.
Proof. cbn [get_field]. intros ->. reflexivity. Qed.

Lemma not_an_error (sim : SimulateTransactionResponse) (retval : ScVal) :
  sim_result_retval sim = Ok retval -> isSimulationError sim = false.
Proof. destruct sim as [msg | [r|] | r]; try discriminate; reflexivity. Qed.

Section Runs.
Context {stellarSDK : StellarSDK} {decoder : BufferDecoder}.
Variable global : SorobanDomainsSDKParams.
Variable rpc : Server.

(** Each operation, run against a server, in closed form: the guard on the
    contract identifier, what is prepared before the first request, and the
    round trip. *)
Lemma searchDomain_run (p : DomainParams) :
  run rpc (searchDomain global p) =
  match vaultsContractId global with
  | None | Some [] => ([], Err (JsError (lit "Vault's contract id was not provided")))
  | Some id =>
      round_trip global rpc (simulationAccount global)
        (_ <- new_Contract id ;;
         Ok (record_call id
               match subDomain p with
               | Some (_ :: _) => RecordKey_SubRecord
               | _ => RecordKey_Record
               end
               (nodeDigest p)))%result
        (fun _ sim => searchDomain_end sim)
  end.
Proof.
  rewrite run_pair. unfold searchDomain.
  destruct (vaultsContractId global) as [[|c id]|]; [reflexivity | | reflexivity].
  rewrite parseDomain_eq. cbn [lift abind].
  rewrite requests_bind_lift, outcome_bind_lift. unfold round_trip.
  destruct (new_Contract (c :: id)) as [contract|e] eqn:Hc; [|reflexivity].
  apply new_Contract_Ok in Hc. destruct Hc as [_ ->]. cbn [rbind].
  rewrite requests_getAccount, outcome_getAccount.
  destruct (getAccount rpc (simulationAccount global)) as [account|e]; [|reflexivity].
  rewrite requests_bind_lift, outcome_bind_lift.
  rewrite nodeDigest_eta, Buffer_from_hex_of_bytes by apply nodeDigest_bytes.
  unfold record_call, call; cbn [contractId].
  match goal with |- context [transaction_for global account ?op] =>
    destruct (transaction_for global account op) as [t|e] end; [|reflexivity].
  rewrite requests_simulateTransaction, outcome_simulateTransaction.
  destruct (simulateTransaction rpc t) as [sim|e]; [|reflexivity].
  unfold searchDomain_end.
  destruct (isSimulationError sim); [reflexivity|].
  rewrite requests_bind_lift, outcome_bind_lift.
  destruct (sim_result_retval sim) as [retval|e]; [|reflexivity].
  cbn [rbind].
  destruct (negb (truthy (scValToNative retval))); [reflexivity|].
  rewrite requests_lift, outcome_lift. reflexivity.
Qed.

Lemma getDomainData_run (p : DataParams) :
  run rpc (getDomainData global p) =
  match valuesDatabaseContractId global with
  | None | Some [] =>
      ([], Err (JsError (lit "KeyValue Database contract id was not provided")))
  | Some id =>
      round_trip global rpc (simulationAccount global)
        (_ <- new_Contract id ;;
         Ok (invokeContractFunction id (lit "get")
               [scvBytes (JsBuffer (Buffer_from_hex (dp_node p)));
                scvSymbol (JsString (dp_key p))]))%result
        (fun _ sim => getDomainData_end sim)
  end.
Proof.
  rewrite run_pair. unfold getDomainData.
  destruct (valuesDatabaseContractId global) as [[|c id]|]; [reflexivity | | reflexivity].
  rewrite requests_bind_lift, outcome_bind_lift. unfold round_trip.
  destruct (new_Contract (c :: id)) as [contract|e] eqn:Hc; [|reflexivity].
  apply new_Contract_Ok in Hc. destruct Hc as [_ ->]. cbn [rbind].
  rewrite requests_getAccount, outcome_getAccount.
  destruct (getAccount rpc (simulationAccount global)) as [account|e]; [|reflexivity].
  rewrite requests_bind_lift, outcome_bind_lift.
  unfold call; cbn [contractId].
  match goal with |- context [transaction_for global account ?op] =>
    destruct (transaction_for global account op) as [t|e] end; [|reflexivity].
  rewrite requests_simulateTransaction, outcome_simulateTransaction.
  destruct (simulateTransaction rpc t) as [sim|e]; [|reflexivity].
  unfold getDomainData_end.
  destruct (isSimulationError sim); [reflexivity|].
  rewrite requests_bind_lift, outcome_bind_lift.
  destruct (sim_result_retval sim) as [retval|e]; [|reflexivity].
  cbn [rbind].
  destruct (negb (truthy (scValToNative retval))); reflexivity.
Qed.

Lemma setDomainData_run (p : SetDataParams) :
  run rpc (setDomainData global p) =
  match valuesDatabaseContractId global with
  | None | Some [] =>
      ([], Err (JsError (lit "KeyValue Database contract id was not provided")))
  | Some id =>
      round_trip global rpc (sp_source p)
        (_ <- new_Contract id ;;
         value <- encode_value (sp_value p) ;;
         Ok (invokeContractFunction id (lit "set")
               [scvBytes (JsBuffer (Buffer_from_hex (sp_node p)));
                scvSymbol (JsString (sp_key p)); value]))%result
        assemble_end
  end.
Proof.
  rewrite run_pair. unfold setDomainData.
  destruct (valuesDatabaseContractId global) as [[|c id]|]; [reflexivity | | reflexivity].
  rewrite requests_bind_lift, outcome_bind_lift. unfold round_trip.
  destruct (new_Contract (c :: id)) as [contract|e] eqn:Hc; [|reflexivity].
  apply new_Contract_Ok in Hc. destruct Hc as [_ ->]. cbn [rbind]. cbn zeta.
  rewrite requests_bind_lift, outcome_bind_lift.
  destruct (encode_value (sp_value p)) as [value|e]; [|reflexivity]. cbn [rbind].
  rewrite requests_getAccount, outcome_getAccount.
  destruct (getAccount rpc (sp_source p)) as [account|e]; [|reflexivity].
  rewrite requests_bind_lift, outcome_bind_lift.
  unfold call; cbn [contractId].
  match goal with |- context [transaction_for global account ?op] =>
    destruct (transaction_for global account op) as [t|e] end; [|reflexivity].
  rewrite requests_simulateTransaction, outcome_simulateTransaction.
  destruct (simulateTransaction rpc t) as [sim|e]; [|reflexivity].
  unfold assemble_end.
  destruct (isSimulationError sim); [reflexivity|].
  rewrite requests_bind_lift, outcome_bind_lift.
  destruct (assembleTransaction t sim); reflexivity.
Qed.

Lemma removeDomainData_run (p : RemoveDataParams) :
  run rpc (removeDomainData global p) =
  match valuesDatabaseContractId global with
  | None | Some [] =>
      ([], Err (JsError (lit "KeyValue Database contract id was not provided")))
  | Some id =>
      round_trip global rpc (rp_source p)
        (_ <- new_Contract id ;;
         Ok (invokeContractFunction id (lit "remove")
               [scvBytes (JsBuffer (Buffer_from_hex (rp_node p)));
                scvSymbol (JsString (rp_key p))]))%result
        assemble_end
  end.
Proof.
  rewrite run_pair. unfold removeDomainData.
  destruct (valuesDatabaseContractId global) as [[|c id]|]; [reflexivity | | reflexivity].
  rewrite requests_bind_lift, outcome_bind_lift. unfold round_trip.
  destruct (new_Contract (c :: id)) as [contract|e] eqn:Hc; [|reflexivity].
  apply new_Contract_Ok in Hc. destruct Hc as [_ ->]. cbn [rbind].
  rewrite requests_getAccount, outcome_getAccount.
  destruct (getAccount rpc (rp_source p)) as [account|e]; [|reflexivity].
  rewrite requests_bind_lift, outcome_bind_lift.
  unfold call; cbn [contractId].
  match goal with |- context [transaction_for global account ?op] =>
    destruct (transaction_for global account op) as [t|e] end; [|reflexivity].
  rewrite requests_simulateTransaction, outcome_simulateTransaction.
  destruct (simulateTransaction rpc t) as [sim|e]; [|reflexivity].
  unfold assemble_end.
  destruct (isSimulationError sim); [reflexivity|].
  rewrite requests_bind_lift, outcome_bind_lift.
  destruct (assembleTransaction t sim); reflexivity.
Qed.

End Runs.

Lemma transaction_for_enveloped {stellarSDK : StellarSDK}
      (global : SorobanDomainsSDKParams) (account : Account) (op : Operation)
      (t : Transaction) :
  transaction_for global account op = Ok t -> enveloped global account op t.
Proof.
  unfold transaction_for, setTimeout, build.
  destruct (timeout_or_0 (defaultTimeout global) <? 0); [discriminate|]. cbn [rbind].
  match goal with |- context [build_throws ?b] => destruct (build_throws b) end;
    [discriminate|].
  intros [= <-]. unfold enveloped, built. cbn. repeat split.
  destruct (defaultTimeout global) as [n|]; cbn; [|reflexivity].
  destruct (n =? 0) eqn:E; [|reflexivity]. apply Z.eqb_eq in E. congruence.
Qed.

Lemma transaction_for_operations {stellarSDK : StellarSDK}
      (global : SorobanDomainsSDKParams) (account : Account) (op : Operation)
      (t : Transaction) :
  transaction_for global account op = Ok t -> tx_operations t = [op].
Proof. intros H. apply transaction_for_enveloped in H. apply H. Qed.

Lemma prepared_call {stellarSDK : StellarSDK} (id : jsstring) (call op : Operation) :
  (_ <- new_Contract id ;; Ok call)%result = Ok op ->
  decodeContract id <> None /\ op = call.
Proof.
  intros H. apply rbind_Ok in H. destruct H as (c & Hc & [= <-]).
  apply new_Contract_Ok in Hc. split; [apply Hc | reflexivity].
Qed.

Section Operations.
Context {stellarSDK : StellarSDK} {decoder : BufferDecoder}.
Variable global : SorobanDomainsSDKParams.
Variable rpc : Server.

Lemma searchDomain_simulated (p : DomainParams) (t : Transaction) :
  In (ReqSimulateTransaction t) (requests rpc (searchDomain global p)) ->
  exists id account,
    vaultsContractId global = Some id /\ id <> [] /\
    decodeContract id <> None /\
    getAccount rpc (simulationAccount global) = Ok account /\
    transaction_for global account
      (record_call id
         match subDomain p with
         | Some (_ :: _) => RecordKey_SubRecord
         | _ => RecordKey_Record
         end
         (nodeDigest p)) = Ok t.
Proof.
  unfold requests. rewrite searchDomain_run.
  destruct (vaultsContractId global) as [[|c id]|]; [intros [] | | intros []].
  intros H. apply round_trip_simulated in H. destruct H as (op & account & Hop & Hacc & Ht).
  apply prepared_call in Hop. destruct Hop as [Hid ->].
  exists (c :: id), account. repeat split; try assumption. discriminate.
Qed.

Lemma getDomainData_simulated (p : DataParams) (t : Transaction) :
  In (ReqSimulateTransaction t) (requests rpc (getDomainData global p)) ->
  exists id account,
    valuesDatabaseContractId global = Some id /\ id <> [] /\
    decodeContract id <> None /\
    getAccount rpc (simulationAccount global) = Ok account /\
    transaction_for global account
      (invokeContractFunction id (lit "get")
         [scvBytes (JsBuffer (Buffer_from_hex (dp_node p)));
          scvSymbol (JsString (dp_key p))]) = Ok t.
Proof.
  unfold requests. rewrite getDomainData_run.
  destruct (valuesDatabaseContractId global) as [[|c id]|]; [intros [] | | intros []].
  intros H. apply round_trip_simulated in H. destruct H as (op & account & Hop & Hacc & Ht).
  apply prepared_call in Hop. destruct Hop as [Hid ->].
  exists (c :: id), account. repeat split; try assumption. discriminate.
Qed.

Lemma setDomainData_simulated (p : SetDataParams) (t : Transaction) :
  In (ReqSimulateTransaction t) (requests rpc (setDomainData global p)) ->
  exists id value account,
    valuesDatabaseContractId global = Some id /\ id <> [] /\
    decodeContract id <> None /\
    encode_value (sp_value p) = Ok value /\
    getAccount rpc (sp_source p) = Ok account /\
    transaction_for global account
      (invokeContractFunction id (lit "set")
         [scvBytes (JsBuffer (Buffer_from_hex (sp_node p)));
          scvSymbol (JsString (sp_key p)); value]) = Ok t.
Proof.
  unfold requests. rewrite setDomainData_run.
  destruct (valuesDatabaseContractId global) as [[|c id]|]; [intros [] | | intros []].
  intros H. apply round_trip_simulated in H. destruct H as (op & account & Hop & Hacc & Ht).
  apply rbind_Ok in Hop. destruct Hop as (contract & Hc & Hop).
  apply rbind_Ok in Hop. destruct Hop as (value & Hvalue & [= <-]).
  apply new_Contract_Ok in Hc. destruct Hc as [Hid _].
  exists (c :: id), value, account. repeat split; try assumption. discriminate.
Qed.

Lemma removeDomainData_simulated (p : RemoveDataParams) (t : Transaction) :
  In (ReqSimulateTransaction t) (requests rpc (removeDomainData global p)) ->
  exists id account,
    valuesDatabaseContractId global = Some id /\ id <> [] /\
    decodeContract id <> None /\
    getAccount rpc (rp_source p) = Ok account /\
    transaction_for global account
      (invokeContractFunction id (lit "remove")
         [scvBytes (JsBuffer (Buffer_from_hex (rp_node p)));
          scvSymbol (JsString (rp_key p))]) = Ok t.
Proof.
  unfold requests. rewrite removeDomainData_run.
  destruct (valuesDatabaseContractId global) as [[|c id]|]; [intros [] | | intros []].
  intros H. apply round_trip_simulated in H. destruct H as (op & account & Hop & Hacc & Ht).
  apply prepared_call in Hop. destruct Hop as [Hid ->].
  exists (c :: id), account. repeat split; try assumption. discriminate.
Qed.

(** What the simulation was answered decides how the operation settles. *)
Lemma searchDomain_settles (p : DomainParams) (t : Transaction) :
  In (ReqSimulateTransaction t) (requests rpc (searchDomain global p)) ->
  outcome rpc (searchDomain global p) =
  match simulateTransaction rpc t with
  | Err e => Err e
  | Ok sim => searchDomain_end sim
  end.
Proof.
  unfold requests, outcome. rewrite searchDomain_run.
  destruct (vaultsContractId global) as [[|c id]|]; [intros [] | | intros []].
  intros H. exact (round_trip_settles _ _ _ _ (fun _ sim => searchDomain_end sim) t H).
Qed.

Lemma getDomainData_settles (p : DataParams) (t : Transaction) :
  In (ReqSimulateTransaction t) (requests rpc (getDomainData global p)) ->
  outcome rpc (getDomainData global p) =
  match simulateTransaction rpc t with
  | Err e => Err e
  | Ok sim => getDomainData_end sim
  end.
Proof.
  unfold requests, outcome. rewrite getDomainData_run.
  destruct (valuesDatabaseContractId global) as [[|c id]|]; [intros [] | | intros []].
  intros H. exact (round_trip_settles _ _ _ _ (fun _ sim => getDomainData_end sim) t H).
Qed.

Lemma setDomainData_settles (p : SetDataParams) (t : Transaction) :
  In (ReqSimulateTransaction t) (requests rpc (setDomainData global p)) ->
  outcome rpc (setDomainData global p) =
  match simulateTransaction rpc t with
  | Err e => Err e
  | Ok sim => assemble_end t sim
  end.
Proof.
  unfold requests, outcome. rewrite setDomainData_run.
  destruct (valuesDatabaseContractId global) as [[|c id]|]; [intros [] | | intros []].
  intros H. exact (round_trip_settles _ _ _ _ assemble_end t H).
Qed.

Lemma removeDomainData_settles (p : RemoveDataParams) (t : Transaction) :
  In (ReqSimulateTransaction t) (requests rpc (removeDomainData global p)) ->
  outcome rpc (removeDomainData global p) =
  match simulateTransaction rpc t with
  | Err e => Err e
  | Ok sim => assemble_end t sim
  end.
Proof.
  unfold requests, outcome. rewrite removeDomainData_run.
  destruct (valuesDatabaseContractId global) as [[|c id]|]; [intros [] | | intros []].
  intros H. exact (round_trip_settles _ _ _ _ assemble_end t H).
Qed.

Lemma searchDomain_simulation_error (p : DomainParams) (t : Transaction) (msg : jsstring) :
  In (ReqSimulateTransaction t) (requests rpc (searchDomain global p)) ->
  simulateTransaction rpc t = Ok (SimulateTransactionErrorResponse msg) ->
  outcome rpc (searchDomain global p) = Err (JsError msg).
Proof. intros H Hsim. rewrite (searchDomain_settles p t H), Hsim. reflexivity. Qed.

Lemma searchDomain_falsy (p : DomainParams) (t : Transaction)
      (sim : SimulateTransactionResponse) (retval : ScVal) :
  In (ReqSimulateTransaction t) (requests rpc (searchDomain global p)) ->
  simulateTransaction rpc t = Ok sim ->
  sim_result_retval sim = Ok retval ->
  truthy (scValToNative retval) = false ->
  outcome rpc (searchDomain global p) = Err Domain404Error.
Proof.
  intros H Hsim Hret Hfalsy. rewrite (searchDomain_settles p t H), Hsim.
  unfold searchDomain_end.
  rewrite (not_an_error _ _ Hret), Hret. cbn [rbind]. rewrite Hfalsy. reflexivity.
Qed.

Lemma getDomainData_simulation_error (p : DataParams) (t : Transaction) (msg : jsstring) :
  In (ReqSimulateTransaction t) (requests rpc (getDomainData global p)) ->
  simulateTransaction rpc t = Ok (SimulateTransactionErrorResponse msg) ->
  outcome rpc (getDomainData global p) = Err (JsError msg).
Proof. intros H Hsim. rewrite (getDomainData_settles p t H), Hsim. reflexivity. Qed.

Lemma getDomainData_falsy (p : DataParams) (t : Transaction)
      (sim : SimulateTransactionResponse) (retval : ScVal) :
  In (ReqSimulateTransaction t) (requests rpc (getDomainData global p)) ->
  simulateTransaction rpc t = Ok sim ->
  sim_result_retval sim = Ok retval ->
  truthy (scValToNative retval) = false ->
  outcome rpc (getDomainData global p) = Err DomainData404Error.
Proof.
  intros H Hsim Hret Hfalsy. rewrite (getDomainData_settles p t H), Hsim.
  unfold getDomainData_end.
  rewrite (not_an_error _ _ Hret), Hret. cbn [rbind]. rewrite Hfalsy. reflexivity.
Qed.

Lemma setDomainData_simulation_error (p : SetDataParams) (t : Transaction) (msg : jsstring) :
  In (ReqSimulateTransaction t) (requests rpc (setDomainData global p)) ->
  simulateTransaction rpc t = Ok (SimulateTransactionErrorResponse msg) ->
  outcome rpc (setDomainData global p) = Err (JsError msg).
Proof. intros H Hsim. rewrite (setDomainData_settles p t H), Hsim. reflexivity. Qed.

Lemma removeDomainData_simulation_error (p : RemoveDataParams) (t : Transaction)
      (msg : jsstring) :
  In (ReqSimulateTransaction t) (requests rpc (removeDomainData global p)) ->
  simulateTransaction rpc t = Ok (SimulateTransactionErrorResponse msg) ->
  outcome rpc (removeDomainData global p) = Err (JsError msg).
Proof. intros H Hsim. rewrite (removeDomainData_settles p t H), Hsim. reflexivity. Qed.

Lemma encode_value_unsupported (v : DomainStorageValue) (discriminant : JsVal) :
  get_index v 0 = Ok discriminant ->
  ~ supported_discriminant discriminant ->
  encode_value v = Err DomainDataUnsupportedValueType.
Proof.
  unfold encode_value, supported_discriminant. intros -> H. cbn [rbind].
  rewrite !strict_eq_string_false by tauto. reflexivity.
Qed.

(** When nothing throws and the account is fetched, the call is simulated. *)
Lemma searchDomain_sends (p : DomainParams) (id : jsstring) (account : Account)
      (t : Transaction) :
  vaultsContractId global = Some id ->
  id <> [] ->
  decodeContract id <> None ->
  getAccount rpc (simulationAccount global) = Ok account ->
  transaction_for global account
    (record_call id
       match subDomain p with
       | Some (_ :: _) => RecordKey_SubRecord
       | _ => RecordKey_Record
       end
       (nodeDigest p)) = Ok t ->
  requests rpc (searchDomain global p) =
  [ReqGetAccount (simulationAccount global); ReqSimulateTransaction t].
Proof.
  intros Hid Hne Hdec Hacc Ht. unfold requests. rewrite searchDomain_run, Hid.
  destruct id as [|c id]; [contradiction|].
  erewrite round_trip_complete; [reflexivity | | exact Hacc | exact Ht].
  rewrite (new_Contract_decoded _ Hdec). reflexivity.
Qed.

Lemma getDomainData_sends (p : DataParams) (id : jsstring) (account : Account)
      (t : Transaction) :
  valuesDatabaseContractId global = Some id ->
  id <> [] ->
  decodeContract id <> None ->
  getAccount rpc (simulationAccount global) = Ok account ->
  transaction_for global account
    (invokeContractFunction id (lit "get")
       [scvBytes (JsBuffer (Buffer_from_hex (dp_node p)));
        scvSymbol (JsString (dp_key p))]) = Ok t ->
  requests rpc (getDomainData global p) =
  [ReqGetAccount (simulationAccount global); ReqSimulateTransaction t].
Proof.
  intros Hid Hne Hdec Hacc Ht. unfold requests. rewrite getDomainData_run, Hid.
  destruct id as [|c id]; [contradiction|].
  erewrite round_trip_complete; [reflexivity | | exact Hacc | exact Ht].
  rewrite (new_Contract_decoded _ Hdec). reflexivity.
Qed.

Lemma setDomainData_sends (p : SetDataParams) (id : jsstring) (value : ScVal)
      (account : Account) (t : Transaction) :
  valuesDatabaseContractId global = Some id ->
  id <> [] ->
  decodeContract id <> None ->
  encode_value (sp_value p) = Ok value ->
  getAccount rpc (sp_source p) = Ok account ->
  transaction_for global account
    (invokeContractFunction id (lit "set")
       [scvBytes (JsBuffer (Buffer_from_hex (sp_node p)));
        scvSymbol (JsString (sp_key p)); value]) = Ok t ->
  requests rpc (setDomainData global p) =
  [ReqGetAccount (sp_source p); ReqSimulateTransaction t].
Proof.
  intros Hid Hne Hdec Hvalue Hacc Ht. unfold requests. rewrite setDomainData_run, Hid.
  destruct id as [|c id]; [contradiction|].
  erewrite round_trip_complete; [reflexivity | | exact Hacc | exact Ht].
  rewrite (new_Contract_decoded _ Hdec). cbn [rbind]. rewrite Hvalue. reflexivity.
Qed.

Lemma removeDomainData_sends (p : RemoveDataParams) (id : jsstring) (account : Account)
      (t : Transaction) :
  valuesDatabaseContractId global = Some id ->
  id <> [] ->
  decodeContract id <> None ->
  getAccount rpc (rp_source p) = Ok account ->
  transaction_for global account
    (invokeContractFunction id (lit "remove")
       [scvBytes (JsBuffer (Buffer_from_hex (rp_node p)));
        scvSymbol (JsString (rp_key p))]) = Ok t ->
  requests rpc (removeDomainData global p) =
  [ReqGetAccount (rp_source p); ReqSimulateTransaction t].
Proof.
  intros Hid Hne Hdec Hacc Ht. unfold requests. rewrite removeDomainData_run, Hid.
  destruct id as [|c id]; [contradiction|].
  erewrite round_trip_complete; [reflexivity | | exact Hacc | exact Ht].
  rewrite (new_Contract_decoded _ Hdec). reflexivity.
Qed.

End Operations.

(* ================================================================= *)
(** ** The claims *)

(** C1. For every domain string [d], the empty one included,
    [parseDomain] without a sub-domain returns, and never throws, the
    Keccak-256 digest of Keccak256("xlm") followed in the accumulator by
    Keccak256(d): feeding the two digests one after the other gives the
    digest of their concatenation. The result is its hexadecimal encoding:
    64 characters, all in [0-9a-f], so lowercase and without prefix. *)
Theorem parseDomain_root_digest (d : jsstring) :
  parseDomain (mkDomainParams d None) = Ok (Sha3.hex_of_bytes (rootDigest d)) /\
  (exists fed_xlm fed_both,
      Sha3.update Sha3.create (Sha3.MBytes (Keccak256_string (lit "xlm"))) = Ok fed_xlm /\
      Sha3.update fed_xlm (Sha3.MBytes (Keccak256_string d)) = Ok fed_both /\
      fst (Sha3.digest fed_both) = rootDigest d) /\
  List.length (Sha3.hex_of_bytes (rootDigest d)) = 64%nat /\
  forallb is_lower_hex (Sha3.hex_of_bytes (rootDigest d)) = true.
Proof.
  split; [apply (parseDomain_eq (mkDomainParams d None))|].
  split.
  - do 2 eexists. rewrite update_create, update_fresh. repeat split.
  - split; [|apply hex_of_bytes_lower].
    rewrite hex_of_bytes_length. unfold rootDigest, Keccak256.
    rewrite keccak256_length. reflexivity.
Qed.

(** C2, as stated, fails on the empty sub-domain: [parseDomain] then returns
    the root digest of the domain, not the digest of the sub-domain rule. *)
Lemma parseDomain_empty_subDomain_is_root :
  parseDomain (mkDomainParams (lit "example") (Some [])) =
    Ok (Sha3.hex_of_bytes (rootDigest (lit "example"))) /\
  parseDomain (mkDomainParams (lit "example") (Some [])) <>
    Ok (Sha3.hex_of_bytes (subDigest (lit "example") [])).
Proof.
  split; [apply (parseDomain_eq (mkDomainParams (lit "example") (Some [])))|].
  intros H. vm_compute in H. discriminate H.
Qed.

(** C2, amended. For every domain string [d] and every sub-domain string [s]
    that is not empty, [parseDomain] returns the hexadecimal encoding of
    Keccak256(Keccak256(rootDigest) ++ Keccak256(s)), where [rootDigest] is
    the 32-byte root digest of [d], hashed as raw bytes. *)
Theorem parseDomain_sub_digest (d s : jsstring) :
  s <> [] ->
  parseDomain (mkDomainParams d (Some s)) = Ok (Sha3.hex_of_bytes (subDigest d s)) /\
  List.length (rootDigest d) = 32%nat.
Proof.
  intros Hs. split.
  - rewrite parseDomain_eq. unfold nodeDigest. cbn [subDomain domain].
    destruct s; [contradiction | reflexivity].
  - unfold rootDigest, Keccak256. apply keccak256_length.
Qed.

Lemma parseDomain_sub_digest_witness :
  parseDomain example_sub_params =
    Ok (Sha3.hex_of_bytes (subDigest (lit "example") (lit "sub"))) /\
  List.length (rootDigest (lit "example")) = 32%nat.
Proof. apply (parseDomain_sub_digest (lit "example") (lit "sub")). discriminate. Defined.

Section Claims.
Context {stellarSDK : StellarSDK} {decoder : BufferDecoder}.
Variable global : SorobanDomainsSDKParams.
Variable rpc : Server.

(** C3. When the simulation of [searchDomain] succeeds and its decoded
    return value is the pair of the tag "Domain" and the fields of a
    domain, the operation resolves to a Domain record with its six fields
    (node and owner in hexadecimal, exp_date, snapshot and collateral in
    decimal); with any other tag and the fields of a sub-domain it resolves
    to a SubDomain record with its four fields. *)
Theorem searchDomain_record_variant (p : DomainParams) (t : Transaction)
        (sim : SimulateTransactionResponse) (retval : ScVal) (w : WireRecord) :
  In (ReqSimulateTransaction t) (requests rpc (searchDomain global p)) ->
  simulateTransaction rpc t = Ok sim ->
  sim_result_retval sim = Ok retval ->
  wire_shape (scValToNative retval) w ->
  outcome rpc (searchDomain global p) = Ok (record_of w).
Proof.
  intros H Hsim Hret (tag & props & Hshape & Hw).
  rewrite (searchDomain_settles global rpc p t H), Hsim. unfold searchDomain_end.
  rewrite (not_an_error _ _ Hret), Hret. cbn [rbind]. rewrite Hshape.
  cbn [truthy negb]. unfold record_of_result. cbn [get_index nth rbind].
  destruct w as [node owner address exp_date snapshot collateral
                | other node parent address snapshot].
  - destruct Hw as (-> & Hnode & Howner & Haddress & Hexp & Hsnap & Hcoll).
    rewrite strict_eq_string_refl.
    rewrite (get_bytes_field _ _ _ Hnode), (get_bytes_field _ _ _ Howner),
      (get_own_field _ _ _ Haddress), (get_integer_field _ _ _ Hexp),
      (get_integer_field _ _ _ Hsnap), (get_integer_field _ _ _ Hcoll).
    reflexivity.
  - destruct Hw as (-> & Hother & Hnode & Hparent & Haddress & Hsnap).
    rewrite (strict_eq_string_false _ _ Hother).
    rewrite (get_bytes_field _ _ _ Hnode), (get_bytes_field _ _ _ Hparent),
      (get_own_field _ _ _ Haddress), (get_integer_field _ _ _ Hsnap).
    reflexivity.
Qed.

(** C4. Whenever the simulated call decodes to an absent result ([null]
    or [undefined]), [searchDomain] fails with [Domain404Error] and
    [getDomainData] fails with [DomainData404Error]. *)
Theorem absent_result_not_found :
  (forall p t sim retval,
      In (ReqSimulateTransaction t) (requests rpc (searchDomain global p)) ->
      simulateTransaction rpc t = Ok sim ->
      sim_result_retval sim = Ok retval ->
      scValToNative retval = JsNull \/ scValToNative retval = JsUndefined ->
      outcome rpc (searchDomain global p) = Err Domain404Error) /\
  (forall p t sim retval,
      In (ReqSimulateTransaction t) (requests rpc (getDomainData global p)) ->
      simulateTransaction rpc t = Ok sim ->
      sim_result_retval sim = Ok retval ->
      scValToNative retval = JsNull \/ scValToNative retval = JsUndefined ->
      outcome rpc (getDomainData global p) = Err DomainData404Error).
Proof.
  split; intros p t sim retval Hin Hsim Hret Habsent.
  - apply (searchDomain_falsy global rpc p t sim retval Hin Hsim Hret).
    destruct Habsent as [-> | ->]; reflexivity.
  - apply (getDomainData_falsy global rpc p t sim retval Hin Hsim Hret).
    destruct Habsent as [-> | ->]; reflexivity.
Qed.

(** C5. Without the contract identifier it needs, an operation fails
    before any request reaches the RPC client: [searchDomain] without the
    vaults identifier, [getDomainData], [setDomainData] and
    [removeDomainData] without the key/value database identifier. *)
Theorem missing_contract_id_fails_first :
  (vaultsContractId global = None ->
   forall p,
     run rpc (searchDomain global p) =
     ([], Err (JsError (lit "Vault's contract id was not provided")))) /\
  (valuesDatabaseContractId global = None ->
   (forall p,
       run rpc (getDomainData global p) =
       ([], Err (JsError (lit "KeyValue Database contract id was not provided")))) /\
   (forall p,
       run rpc (setDomainData global p) =
       ([], Err (JsError (lit "KeyValue Database contract id was not provided")))) /\
   (forall p,
       run rpc (removeDomainData global p) =
       ([], Err (JsError (lit "KeyValue Database contract id was not provided"))))).
Proof.
  split.
  - intros H p. unfold searchDomain. rewrite H. reflexivity.
  - intros H. repeat split; intros p.
    + unfold getDomainData. rewrite H. reflexivity.
    + unfold setDomainData. rewrite H. reflexivity.
    + unfold removeDomainData. rewrite H. reflexivity.
Qed.

(** C6. With the key/value database identifier configured and accepted by
    [new Contract], which the code evaluates between the configuration
    guard and the switch on the discriminant, every value whose
    discriminant is none of Bytes, Number and String makes [setDomainData]
    fail with [DomainDataUnsupportedValueType] before any request, so
    before the account is fetched and before any simulation. *)
Theorem setDomainData_unsupported_value (p : SetDataParams) (id : jsstring)
        (discriminant : JsVal) :
  valuesDatabaseContractId global = Some id ->
  id <> [] ->
  decodeContract id <> None ->
  get_index (sp_value p) 0 = Ok discriminant ->
  ~ supported_discriminant discriminant ->
  run rpc (setDomainData global p) = ([], Err DomainDataUnsupportedValueType).
Proof.
  intros Hid Hne Hdec Hd Hu. rewrite setDomainData_run, Hid.
  destruct id as [|c id]; [contradiction|].
  rewrite (new_Contract_decoded _ Hdec). cbn [rbind].
  rewrite (encode_value_unsupported _ _ Hd Hu). reflexivity.
Qed.

(** The identifier is checked first: one that [new Contract] refuses makes
    [setDomainData] fail with that error whatever the value is, and again
    before any request. *)
Lemma setDomainData_refused_contract_id (p : SetDataParams) (id : jsstring) :
  valuesDatabaseContractId global = Some id ->
  id <> [] ->
  decodeContract id = None ->
  run rpc (setDomainData global p) =
  ([], Err (JsError (lit "Invalid contract ID: " ++ id))).
Proof.
  intros Hid Hne Hdec. rewrite setDomainData_run, Hid.
  destruct id as [|c id]; [contradiction|].
  rewrite (new_Contract_refused _ Hdec). reflexivity.
Qed.

(** C7. In each of the four operations, when the RPC client answers the
    simulation with an error, the operation fails with an [Error] whose
    message is that error, unchanged. *)
Theorem simulation_error_surfaced (msg : jsstring) :
  (forall p t,
      In (ReqSimulateTransaction t) (requests rpc (searchDomain global p)) ->
      simulateTransaction rpc t = Ok (SimulateTransactionErrorResponse msg) ->
      outcome rpc (searchDomain global p) = Err (JsError msg)) /\
  (forall p t,
      In (ReqSimulateTransaction t) (requests rpc (getDomainData global p)) ->
      simulateTransaction rpc t = Ok (SimulateTransactionErrorResponse msg) ->
      outcome rpc (getDomainData global p) = Err (JsError msg)) /\
  (forall p t,
      In (ReqSimulateTransaction t) (requests rpc (setDomainData global p)) ->
      simulateTransaction rpc t = Ok (SimulateTransactionErrorResponse msg) ->
      outcome rpc (setDomainData global p) = Err (JsError msg)) /\
  (forall p t,
      In (ReqSimulateTransaction t) (requests rpc (removeDomainData global p)) ->
      simulateTransaction rpc t = Ok (SimulateTransactionErrorResponse msg) ->
      outcome rpc (removeDomainData global p) = Err (JsError msg)).
Proof.
  repeat split; intros p t.
  - apply searchDomain_simulation_error.
  - apply getDomainData_simulation_error.
  - apply setDomainData_simulation_error.
  - apply removeDomainData_simulation_error.
Qed.


(** C9. An empty sub-domain is an absent one: [parseDomain] returns the
    root digest for it, [searchDomain] is the same operation with it as
    without it, and the call it simulates addresses [RecordKey.Record].
    That call is built and sent: with the vaults identifier accepted, the
    simulation account fetched and the transaction built, [searchDomain]
    with the empty sub-domain sends exactly the account fetch followed by
    the simulation of [record] called with the symbol of [RecordKey.Record]
    and the root digest, the requests it sends without a sub-domain. *)
Theorem empty_subDomain_as_absent (d : jsstring) :
  parseDomain (mkDomainParams d (Some [])) = parseDomain (mkDomainParams d None) /\
  parseDomain (mkDomainParams d (Some [])) = Ok (Sha3.hex_of_bytes (rootDigest d)) /\
  searchDomain global (mkDomainParams d (Some [])) =
    searchDomain global (mkDomainParams d None) /\
  (forall t,
      In (ReqSimulateTransaction t)
         (requests rpc (searchDomain global (mkDomainParams d (Some [])))) ->
      exists id, tx_operations t = [record_call id RecordKey_Record (rootDigest d)]) /\
  (forall id account t,
      vaultsContractId global = Some id ->
      id <> [] ->
      decodeContract id <> None ->
      getAccount rpc (simulationAccount global) = Ok account ->
      transaction_for global account (record_call id RecordKey_Record (rootDigest d)) = Ok t ->
      requests rpc (searchDomain global (mkDomainParams d (Some []))) =
        [ReqGetAccount (simulationAccount global); ReqSimulateTransaction t] /\
      requests rpc (searchDomain global (mkDomainParams d None)) =
        [ReqGetAccount (simulationAccount global); ReqSimulateTransaction t] /\
      tx_operations t = [record_call id RecordKey_Record (rootDigest d)]).
Proof.
  split; [reflexivity|].
  split; [apply (parseDomain_eq (mkDomainParams d (Some [])))|].
  split; [reflexivity|].
  split.
  - intros t H. destruct (searchDomain_simulated global rpc _ t H)
      as (id & account & _ & _ & _ & _ & Ht).
    exists id. exact (transaction_for_operations _ _ _ _ Ht).
  - intros id account t Hid Hne Hdec Hacc Ht.
    split; [|split].
    + exact (searchDomain_sends global rpc (mkDomainParams d (Some [])) id account t
               Hid Hne Hdec Hacc Ht).
    + exact (searchDomain_sends global rpc (mkDomainParams d None) id account t
               Hid Hne Hdec Hacc Ht).
    + exact (transaction_for_operations _ _ _ _ Ht).
Qed.

(** C10. Absence is tested by falsiness: for every decoded result that is
    falsy ([null], [undefined], but also [false], [0], [0n] and the empty
    string) [searchDomain] throws [Domain404Error] and [getDomainData]
    throws [DomainData404Error], whatever the value was. *)
Theorem falsy_result_not_found :
  (forall v,
      In v [JsNull; JsUndefined; JsBool false; JsNumber 0; JsBigInt 0; JsString []] ->
      truthy v = false) /\
  (forall p t sim retval,
      In (ReqSimulateTransaction t) (requests rpc (searchDomain global p)) ->
      simulateTransaction rpc t = Ok sim ->
      sim_result_retval sim = Ok retval ->
      truthy (scValToNative retval) = false ->
      outcome rpc (searchDomain global p) = Err Domain404Error) /\
  (forall p t sim retval,
      In (ReqSimulateTransaction t) (requests rpc (getDomainData global p)) ->
      simulateTransaction rpc t = Ok sim ->
      sim_result_retval sim = Ok retval ->
      truthy (scValToNative retval) = false ->
      outcome rpc (getDomainData global p) = Err DomainData404Error).
Proof.
  split; [|split].
  - intros v H. cbn [In] in H.
    repeat (destruct H as [<- | H]; [reflexivity|]). destruct H.
  - apply searchDomain_falsy.
  - apply getDomainData_falsy.
Qed.

End Claims.

(* ================================================================= *)
(** ** The claims on concrete inputs *)

Lemma searchDomain_record_variant_witness :
  outcome (sample_server (returns sample_domain)) (searchDomain sample_global example_params) =
  Ok (record_of
        (WireDomain [171; 205; 1] [0; 255] (JsString resolved_address)
           1735689600 1704067200 125000000)).
Proof.
  apply (searchDomain_record_variant sample_global (sample_server (returns sample_domain))
           example_params example_record_tx (returns sample_domain) sample_domain).
  - vm_compute. right; left; reflexivity.
  - reflexivity.
  - reflexivity.
  - eexists. eexists. split; [reflexivity|]. repeat split.
Defined.

Example searchDomain_subdomain_example :
  outcome (sample_server (returns sample_subdomain))
          (searchDomain sample_global example_sub_params) =
  Ok (record_of
        (WireSubDomain (JsString (lit "SubDomain")) [18; 52] [171; 205; 1]
           (JsString resolved_address) 1704067200)).
Proof. vm_compute. reflexivity. Qed.

Example parseDomain_example :
  parseDomain example_params =
  Ok (lit "dc75a4bce9e729fa81f394f85e2d09e0e47d7b0b2f3bbd5ffe8aef88cedb9eca").
Proof. vm_compute. reflexivity. Qed.

Lemma absent_result_not_found_witness :
  outcome (sample_server (returns scvVoid)) (searchDomain sample_global example_params) =
    Err Domain404Error /\
  outcome (sample_server (returns scvVoid)) (getDomainData sample_global example_data_params) =
    Err DomainData404Error.
Proof.
  destruct (absent_result_not_found sample_global (sample_server (returns scvVoid)))
    as [Hsearch Hget].
  split.
  - apply (Hsearch example_params example_record_tx (returns scvVoid) scvVoid).
    + vm_compute. right; left; reflexivity.
    + reflexivity.
    + reflexivity.
    + left. reflexivity.
  - apply (Hget example_data_params example_get_tx (returns scvVoid) scvVoid).
    + vm_compute. right; left; reflexivity.
    + reflexivity.
    + reflexivity.
    + left. reflexivity.
Defined.

Lemma missing_contract_id_fails_first_witness :
  run (sample_server (returns scvVoid)) (searchDomain bare_global example_params) =
    ([], Err (JsError (lit "Vault's contract id was not provided"))) /\
  run (sample_server (returns scvVoid)) (getDomainData bare_global example_data_params) =
    ([], Err (JsError (lit "KeyValue Database contract id was not provided"))) /\
  run (sample_server (returns scvVoid))
      (setDomainData bare_global (example_set_params example_string_value)) =
    ([], Err (JsError (lit "KeyValue Database contract id was not provided"))) /\
  run (sample_server (returns scvVoid)) (removeDomainData bare_global example_remove_params) =
    ([], Err (JsError (lit "KeyValue Database contract id was not provided"))).
Proof.
  destruct (missing_contract_id_fails_first bare_global (sample_server (returns scvVoid)))
    as [Hvaults Hvalues].
  destruct (Hvalues eq_refl) as (Hget & Hset & Hremove).
  split; [|split; [|split]].
  - apply (Hvaults eq_refl).
  - apply Hget.
  - apply Hset.
  - apply Hremove.
Defined.

Lemma setDomainData_unsupported_value_witness :
  run (sample_server (returns scvVoid))
      (setDomainData sample_global (example_set_params example_address_value)) =
  ([], Err DomainDataUnsupportedValueType).
Proof.
  apply (setDomainData_unsupported_value sample_global (sample_server (returns scvVoid))
           (example_set_params example_address_value) values_id
           (JsString (lit "Address"))).
  - reflexivity.
  - discriminate.
  - vm_compute. discriminate.
  - reflexivity.
  - intros [H | [H | H]]; discriminate H.
Defined.

Example setDomainData_malformed_contract_id_example :
  run (sample_server (returns scvVoid))
      (setDomainData
         (mkParams (network sample_global) simulation_account (Some vaults_id)
            (Some (lit "CVALUES")) (defaultFee sample_global) (defaultTimeout sample_global))
         (example_set_params example_address_value)) =
  ([], Err (JsError (lit "Invalid contract ID: CVALUES"))).
Proof. vm_compute. reflexivity. Qed.

Lemma simulation_error_surfaced_witness :
  outcome (sample_server host_error) (searchDomain sample_global example_params) =
    Err (JsError (lit "HostError: Error(Contract, #1)")) /\
  outcome (sample_server host_error) (getDomainData sample_global example_data_params) =
    Err (JsError (lit "HostError: Error(Contract, #1)")) /\
  outcome (sample_server host_error)
          (setDomainData sample_global (example_set_params example_string_value)) =
    Err (JsError (lit "HostError: Error(Contract, #1)")) /\
  outcome (sample_server host_error) (removeDomainData sample_global example_remove_params) =
    Err (JsError (lit "HostError: Error(Contract, #1)")).
Proof.
  destruct (simulation_error_surfaced sample_global (sample_server host_error)
              (lit "HostError: Error(Contract, #1)"))
    as (Hsearch & Hget & Hset & Hremove).
  split; [|split; [|split]].
  - apply (Hsearch example_params example_record_tx);
      [vm_compute; right; left; reflexivity | reflexivity].
  - apply (Hget example_data_params example_get_tx);
      [vm_compute; right; left; reflexivity | reflexivity].
  - apply (Hset (example_set_params example_string_value) example_set_tx);
      [vm_compute; right; left; reflexivity | reflexivity].
  - apply (Hremove example_remove_params example_remove_tx);
      [vm_compute; right; left; reflexivity | reflexivity].
Defined.



Lemma empty_subDomain_as_absent_witness :
  parseDomain example_empty_sub_params = parseDomain example_params /\
  requests (sample_server (returns sample_domain))
           (searchDomain sample_global example_empty_sub_params) =
    [ReqGetAccount simulation_account; ReqSimulateTransaction example_record_tx] /\
  requests (sample_server (returns sample_domain))
           (searchDomain sample_global example_params) =
    [ReqGetAccount simulation_account; ReqSimulateTransaction example_record_tx] /\
  tx_operations example_record_tx =
    [record_call vaults_id RecordKey_Record (rootDigest (lit "example"))].
Proof.
  destruct (empty_subDomain_as_absent sample_global (sample_server (returns sample_domain))
              (lit "example"))
    as (Hparse & _ & _ & _ & Hsent).
  split; [exact Hparse|].
  apply (Hsent vaults_id (mkAccount simulation_account 7) example_record_tx).
  - reflexivity.
  - discriminate.
  - vm_compute. discriminate.
  - reflexivity.
  - reflexivity.
Defined.

Lemma falsy_result_not_found_witness :
  scValToNative (scvU32 0) = JsNumber 0 /\
  outcome (sample_server (returns (scvU32 0))) (searchDomain sample_global example_params) =
    Err Domain404Error /\
  outcome (sample_server (returns (scvU32 0)))
          (getDomainData sample_global example_data_params) =
    Err DomainData404Error.
Proof.
  destruct (falsy_result_not_found sample_global (sample_server (returns (scvU32 0))))
    as (_ & Hsearch & Hget).
  split; [reflexivity|]. split.
  - apply (Hsearch example_params example_record_tx (returns (scvU32 0)) (scvU32 0));
      [vm_compute; right; left; reflexivity | reflexivity | reflexivity | reflexivity].
  - apply (Hget example_data_params example_get_tx (returns (scvU32 0)) (scvU32 0));
      [vm_compute; right; left; reflexivity | reflexivity | reflexivity | reflexivity].
Defined.

(* ================================================================= *)
(* ================================================================= *)
(** ** Further properties of the operations *)


(** X1. For every domain and sub-domain, [parseDomain] returns a node of 64
    lowercase hexadecimal characters, and [Buffer.from(node, 'hex')], which
    the operations send to the contract, is 32 bytes that encode back to the
    same node. *)
Theorem parseDomain_node_well_formed (p : DomainParams) :
  exists node,
    parseDomain p = Ok node /\
    List.length node = 64%nat /\
    forallb is_lower_hex node = true /\
    List.length (Buffer_from_hex node) = 32%nat /\
    Sha3.hex_of_bytes (Buffer_from_hex node) = node.
Proof.
  exists (Sha3.hex_of_bytes (nodeDigest p)).
  rewrite Buffer_from_hex_of_bytes by apply nodeDigest_bytes.
  rewrite hex_of_bytes_length, nodeDigest_length.
  repeat split; [apply parseDomain_eq | apply hex_of_bytes_lower].
Qed.

(** X2. The node of a sub-domain is derived from the node of its domain:
    for a sub-domain that is not empty it is the hexadecimal encoding of
    Keccak256(Keccak256(bytes of the parent node) ++ Keccak256(sub-domain)),
    so it depends on the domain through its node only. *)
Theorem parseDomain_sub_from_parent (d s parent : jsstring) :
  s <> [] ->
  parseDomain (mkDomainParams d None) = Ok parent ->
  parseDomain (mkDomainParams d (Some s)) =
  Ok (Sha3.hex_of_bytes
        (Keccak256 (Keccak256 (Buffer_from_hex parent) ++ Keccak256_string s))).
Proof.
  intros Hs Hparent. rewrite parseDomain_eq in Hparent |- *.
  injection Hparent as <-.
  rewrite Buffer_from_hex_of_bytes by apply nodeDigest_bytes.
  destruct s; [contradiction | reflexivity].
Qed.

Lemma parseDomain_sub_from_parent_witness :
  parseDomain example_sub_params =
  Ok (Sha3.hex_of_bytes
        (Keccak256
           (Keccak256
              (Buffer_from_hex
                 (lit "dc75a4bce9e729fa81f394f85e2d09e0e47d7b0b2f3bbd5ffe8aef88cedb9eca")) ++
            Keccak256_string (lit "sub")))).
Proof.
  apply (parseDomain_sub_from_parent (lit "example") (lit "sub")).
  - discriminate.
  - vm_compute. reflexivity.
Defined.

Lemma Bytes_is_not_String : JsString (lit "Bytes") <> JsString (lit "String").
Proof. intros H. vm_compute in H. discriminate H. Qed.

Lemma Bytes_is_not_Number : JsString (lit "Bytes") <> JsString (lit "Number").
Proof. intros H. vm_compute in H. discriminate H. Qed.

Lemma Number_is_not_String : JsString (lit "Number") <> JsString (lit "String").
Proof. intros H. vm_compute in H. discriminate H. Qed.

Lemma encode_value_Ok {stellarSDK : StellarSDK} (v : DomainStorageValue) (value : ScVal) :
  encode_value v = Ok value ->
  exists discriminant v1 payload,
    get_index v 0 = Ok discriminant /\
    supported_discriminant discriminant /\
    get_index v 1 = Ok v1 /\
    value = scvVec [scvSymbol discriminant; payload] /\
    (discriminant = JsString (lit "Bytes") -> payload = scvBytes v1) /\
    (discriminant = JsString (lit "Number") -> nativeToScVal_i128 v1 = Ok payload) /\
    (discriminant = JsString (lit "String") -> payload = scvString v1).
Proof.
  unfold encode_value, supported_discriminant.
  destruct (get_index v 0) as [d|e]; [|discriminate]. cbn [rbind].
  destruct (strict_eq_string d (lit "Bytes")) eqn:EB.
  { apply strict_eq_string_true in EB. subst d.
    destruct (get_index v 1) as [v1|e]; [|discriminate]. cbn [rbind]. intros [= <-].
    exists (JsString (lit "Bytes")), v1, (scvBytes v1).
    repeat split; auto.
    - intros H. destruct (Bytes_is_not_Number H).
    - intros H. destruct (Bytes_is_not_String H). }
  destruct (strict_eq_string d (lit "Number")) eqn:EN.
  { apply strict_eq_string_true in EN. subst d.
    destruct (get_index v 1) as [v1|e]; [|discriminate]. cbn [rbind].
    destruct (nativeToScVal_i128 v1) as [number|e] eqn:Enum; [|discriminate].
    cbn [rbind]. intros [= <-].
    exists (JsString (lit "Number")), v1, number.
    repeat split; auto.
    - intros H. symmetry in H. destruct (Bytes_is_not_Number H).
    - intros H. destruct (Number_is_not_String H). }
  destruct (strict_eq_string d (lit "String")) eqn:ES; [|discriminate].
  apply strict_eq_string_true in ES. subst d.
  destruct (get_index v 1) as [v1|e]; [|discriminate]. cbn [rbind]. intros [= <-].
  exists (JsString (lit "String")), v1, (scvString v1).
  repeat split; auto.
  - intros H. symmetry in H. destruct (Bytes_is_not_String H).
  - intros H. symmetry in H. destruct (Number_is_not_String H).
Qed.

Lemma truthy_has_index (v : JsVal) (i : nat) :
  truthy v = true -> exists x, get_index v i = Ok x.
Proof. destruct v; try discriminate; intros _; eexists; reflexivity. Qed.


Lemma encode_value_supported {stellarSDK : StellarSDK} (v discriminant v1 : JsVal)
      (payload : ScVal) :
  get_index v 0 = Ok discriminant ->
  supported_discriminant discriminant ->
  get_index v 1 = Ok v1 ->
  (discriminant = JsString (lit "Bytes") -> payload = scvBytes v1) ->
  (discriminant = JsString (lit "Number") -> nativeToScVal_i128 v1 = Ok payload) ->
  (discriminant = JsString (lit "String") -> payload = scvString v1) ->
  encode_value v = Ok (scvVec [scvSymbol discriminant; payload]).
Proof.
  intros H0 Hs H1 HB HN HS. unfold encode_value. rewrite H0. cbn [rbind].
  destruct Hs as [-> | [-> | ->]].
  - rewrite strict_eq_string_refl, H1. cbn [rbind]. rewrite (HB eq_refl). reflexivity.
  - rewrite (strict_eq_string_false _ _ (fun H => Bytes_is_not_Number (eq_sym H))).
    rewrite strict_eq_string_refl, H1. cbn [rbind]. rewrite (HN eq_refl). reflexivity.
  - rewrite (strict_eq_string_false _ _ (fun H => Bytes_is_not_String (eq_sym H))).
    rewrite (strict_eq_string_false _ _ (fun H => Number_is_not_String (eq_sym H))).
    rewrite strict_eq_string_refl, H1. cbn [rbind]. rewrite (HS eq_refl). reflexivity.
Qed.


Section Further.
Context {stellarSDK : StellarSDK} {decoder : BufferDecoder}.
Variable global : SorobanDomainsSDKParams.
Variable rpc : Server.

(** X3. Whatever the server answers, an operation sends at most two
    requests: the fetch of one account (the simulation account for the two
    lookups, the caller's source account for [setDomainData] and
    [removeDomainData]) and, only after it, one simulation. *)
Theorem operations_request_discipline :
  (forall p, request_discipline (simulationAccount global)
               (requests rpc (searchDomain global p))) /\
  (forall p, request_discipline (simulationAccount global)
               (requests rpc (getDomainData global p))) /\
  (forall p, request_discipline (sp_source p) (requests rpc (setDomainData global p))) /\
  (forall p, request_discipline (rp_source p) (requests rpc (removeDomainData global p))).
Proof.
  split; [|split; [|split]]; intros p; unfold requests.
  - rewrite searchDomain_run.
    destruct (vaultsContractId global) as [[|c id]|]; try (left; reflexivity).
    apply round_trip_discipline.
  - rewrite getDomainData_run.
    destruct (valuesDatabaseContractId global) as [[|c id]|]; try (left; reflexivity).
    apply round_trip_discipline.
  - rewrite setDomainData_run.
    destruct (valuesDatabaseContractId global) as [[|c id]|]; try (left; reflexivity).
    apply round_trip_discipline.
  - rewrite removeDomainData_run.
    destruct (valuesDatabaseContractId global) as [[|c id]|]; try (left; reflexivity).
    apply round_trip_discipline.
Qed.

(** X4. When the account fetch is rejected, the operation rejects with the
    same error and no simulation is requested. *)
Theorem account_rejection_propagates (e : Error) :
  (forall p a,
      In (ReqGetAccount a) (requests rpc (searchDomain global p)) ->
      getAccount rpc a = Err e ->
      run rpc (searchDomain global p) = ([ReqGetAccount a], Err e)) /\
  (forall p a,
      In (ReqGetAccount a) (requests rpc (getDomainData global p)) ->
      getAccount rpc a = Err e ->
      run rpc (getDomainData global p) = ([ReqGetAccount a], Err e)) /\
  (forall p a,
      In (ReqGetAccount a) (requests rpc (setDomainData global p)) ->
      getAccount rpc a = Err e ->
      run rpc (setDomainData global p) = ([ReqGetAccount a], Err e)) /\
  (forall p a,
      In (ReqGetAccount a) (requests rpc (removeDomainData global p)) ->
      getAccount rpc a = Err e ->
      run rpc (removeDomainData global p) = ([ReqGetAccount a], Err e)).
Proof.
  split; [|split; [|split]]; intros p a H Hrej; unfold requests in H.
  - rewrite searchDomain_run in H |- *.
    destruct (vaultsContractId global) as [[|c id]|]; try destruct H.
    exact (round_trip_account_rejected _ _ _ _ _ a e H Hrej).
  - rewrite getDomainData_run in H |- *.
    destruct (valuesDatabaseContractId global) as [[|c id]|]; try destruct H.
    exact (round_trip_account_rejected _ _ _ _ _ a e H Hrej).
  - rewrite setDomainData_run in H |- *.
    destruct (valuesDatabaseContractId global) as [[|c id]|]; try destruct H.
    exact (round_trip_account_rejected _ _ _ _ _ a e H Hrej).
  - rewrite removeDomainData_run in H |- *.
    destruct (valuesDatabaseContractId global) as [[|c id]|]; try destruct H.
    exact (round_trip_account_rejected _ _ _ _ _ a e H Hrej).
Qed.

(** X5. When the simulation request itself is rejected (the transport
    fails, as opposed to an error response), the operation rejects with the
    same error. *)
Theorem simulation_rejection_propagates (e : Error) :
  (forall p t,
      In (ReqSimulateTransaction t) (requests rpc (searchDomain global p)) ->
      simulateTransaction rpc t = Err e ->
      outcome rpc (searchDomain global p) = Err e) /\
  (forall p t,
      In (ReqSimulateTransaction t) (requests rpc (getDomainData global p)) ->
      simulateTransaction rpc t = Err e ->
      outcome rpc (getDomainData global p) = Err e) /\
  (forall p t,
      In (ReqSimulateTransaction t) (requests rpc (setDomainData global p)) ->
      simulateTransaction rpc t = Err e ->
      outcome rpc (setDomainData global p) = Err e) /\
  (forall p t,
      In (ReqSimulateTransaction t) (requests rpc (removeDomainData global p)) ->
      simulateTransaction rpc t = Err e ->
      outcome rpc (removeDomainData global p) = Err e).
Proof.
  split; [|split; [|split]]; intros p t H Hrej.
  - rewrite (searchDomain_settles global rpc p t H), Hrej. reflexivity.
  - rewrite (getDomainData_settles global rpc p t H), Hrej. reflexivity.
  - rewrite (setDomainData_settles global rpc p t H), Hrej. reflexivity.
  - rewrite (removeDomainData_settles global rpc p t H), Hrej. reflexivity.
Qed.

(** X6. When the simulated [get] succeeds and its decoded return value is
    truthy, [getDomainData] resolves to that value, unchanged. *)
Theorem getDomainData_returns_decoded (p : DataParams) (t : Transaction)
        (sim : SimulateTransactionResponse) (retval : ScVal) :
  In (ReqSimulateTransaction t) (requests rpc (getDomainData global p)) ->
  simulateTransaction rpc t = Ok sim ->
  sim_result_retval sim = Ok retval ->
  truthy (scValToNative retval) = true ->
  outcome rpc (getDomainData global p) = Ok (scValToNative retval).
Proof.
  intros H Hsim Hret Htruthy.
  rewrite (getDomainData_settles global rpc p t H), Hsim.
  unfold getDomainData_end.
  rewrite (not_an_error _ _ Hret), Hret. cbn [rbind]. rewrite Htruthy. reflexivity.
Qed.

(** X7. Every transaction an operation sends for simulation has the fetched
    account as its source, the configured network passphrase and fee, the
    configured timeout (0 when none is configured) and exactly one
    operation. *)
Theorem simulated_transaction_envelope :
  (forall p t,
      In (ReqSimulateTransaction t) (requests rpc (searchDomain global p)) ->
      exists account op,
        getAccount rpc (simulationAccount global) = Ok account /\
        enveloped global account op t) /\
  (forall p t,
      In (ReqSimulateTransaction t) (requests rpc (getDomainData global p)) ->
      exists account op,
        getAccount rpc (simulationAccount global) = Ok account /\
        enveloped global account op t) /\
  (forall p t,
      In (ReqSimulateTransaction t) (requests rpc (setDomainData global p)) ->
      exists account op,
        getAccount rpc (sp_source p) = Ok account /\
        enveloped global account op t) /\
  (forall p t,
      In (ReqSimulateTransaction t) (requests rpc (removeDomainData global p)) ->
      exists account op,
        getAccount rpc (rp_source p) = Ok account /\
        enveloped global account op t).
Proof.
  split; [|split; [|split]]; intros p t H.
  - destruct (searchDomain_simulated global rpc p t H)
      as (id & account & _ & _ & _ & Hacc & Ht).
    exists account. eexists. split; [exact Hacc | exact (transaction_for_enveloped _ _ _ _ Ht)].
  - destruct (getDomainData_simulated global rpc p t H)
      as (id & account & _ & _ & _ & Hacc & Ht).
    exists account. eexists. split; [exact Hacc | exact (transaction_for_enveloped _ _ _ _ Ht)].
  - destruct (setDomainData_simulated global rpc p t H)
      as (id & value & account & _ & _ & _ & _ & Hacc & Ht).
    exists account. eexists. split; [exact Hacc | exact (transaction_for_enveloped _ _ _ _ Ht)].
  - destruct (removeDomainData_simulated global rpc p t H)
      as (id & account & _ & _ & _ & Hacc & Ht).
    exists account. eexists. split; [exact Hacc | exact (transaction_for_enveloped _ _ _ _ Ht)].
Qed.

End Further.

Section FurtherData.
Context {stellarSDK : StellarSDK} {decoder : BufferDecoder}.
Variable global : SorobanDomainsSDKParams.
Variable rpc : Server.

(** X8. The call [getDomainData] simulates is [get(node, key)] and the call
    [removeDomainData] simulates is [remove(node, key)], both on the
    key/value database contract: the node as the bytes [Buffer.from] decodes
    from its hexadecimal string, the key as a symbol, and nothing else. The
    calls are built and sent: once the identifier is accepted, the account
    fetched (the simulation account for [get], the caller's source account
    for [remove]) and the transaction around the call built, the operation
    sends exactly the account fetch followed by the simulation of that
    transaction. *)
Theorem data_lookup_and_removal_calls :
  (forall p t,
      In (ReqSimulateTransaction t) (requests rpc (getDomainData global p)) ->
      exists id,
        valuesDatabaseContractId global = Some id /\
        tx_operations t =
        [invokeContractFunction id (lit "get")
           [scvBytes (JsBuffer (Buffer_from_hex (dp_node p)));
            scvSymbol (JsString (dp_key p))]]) /\
  (forall p t,
      In (ReqSimulateTransaction t) (requests rpc (removeDomainData global p)) ->
      exists id,
        valuesDatabaseContractId global = Some id /\
        tx_operations t =
        [invokeContractFunction id (lit "remove")
           [scvBytes (JsBuffer (Buffer_from_hex (rp_node p)));
            scvSymbol (JsString (rp_key p))]]) /\
  (forall p id account t,
      valuesDatabaseContractId global = Some id ->
      id <> [] ->
      decodeContract id <> None ->
      getAccount rpc (simulationAccount global) = Ok account ->
      transaction_for global account
        (invokeContractFunction id (lit "get")
           [scvBytes (JsBuffer (Buffer_from_hex (dp_node p)));
            scvSymbol (JsString (dp_key p))]) = Ok t ->
      requests rpc (getDomainData global p) =
      [ReqGetAccount (simulationAccount global); ReqSimulateTransaction t]) /\
  (forall p id account t,
      valuesDatabaseContractId global = Some id ->
      id <> [] ->
      decodeContract id <> None ->
      getAccount rpc (rp_source p) = Ok account ->
      transaction_for global account
        (invokeContractFunction id (lit "remove")
           [scvBytes (JsBuffer (Buffer_from_hex (rp_node p)));
            scvSymbol (JsString (rp_key p))]) = Ok t ->
      requests rpc (removeDomainData global p) =
      [ReqGetAccount (rp_source p); ReqSimulateTransaction t]).
Proof.
  split; [|split; [|split]].
  - intros p t H. destruct (getDomainData_simulated global rpc p t H)
      as (id & account & Hid & _ & _ & _ & Ht).
    exists id. split; [exact Hid | exact (transaction_for_operations _ _ _ _ Ht)].
  - intros p t H. destruct (removeDomainData_simulated global rpc p t H)
      as (id & account & Hid & _ & _ & _ & Ht).
    exists id. split; [exact Hid | exact (transaction_for_operations _ _ _ _ Ht)].
  - intros p id account t. apply getDomainData_sends.
  - intros p id account t. apply removeDomainData_sends.
Qed.

(** X9. The call [setDomainData] simulates is [set(node, key, value)] on the
    key/value database contract, where [value] is a vector of two elements:
    the symbol of the discriminant, which is one of Bytes, Number and String,
    and the payload, as bytes for Bytes, as a string for String, and as what
    [nativeToScVal] makes of it with type i128 for Number. The call is built
    and sent: for a value of that shape, once the identifier is accepted,
    the source account fetched and the transaction around the call built,
    [setDomainData] sends exactly the account fetch followed by the
    simulation of that transaction. *)
Theorem setDomainData_call (p : SetDataParams) :
  (forall t,
      In (ReqSimulateTransaction t) (requests rpc (setDomainData global p)) ->
      exists id discriminant v1 payload,
        valuesDatabaseContractId global = Some id /\
        get_index (sp_value p) 0 = Ok discriminant /\
        supported_discriminant discriminant /\
        get_index (sp_value p) 1 = Ok v1 /\
        tx_operations t =
        [invokeContractFunction id (lit "set")
           [scvBytes (JsBuffer (Buffer_from_hex (sp_node p)));
            scvSymbol (JsString (sp_key p));
            scvVec [scvSymbol discriminant; payload]]] /\
        (discriminant = JsString (lit "Bytes") -> payload = scvBytes v1) /\
        (discriminant = JsString (lit "Number") -> nativeToScVal_i128 v1 = Ok payload) /\
        (discriminant = JsString (lit "String") -> payload = scvString v1)) /\
  (forall id discriminant v1 payload account t,
      valuesDatabaseContractId global = Some id ->
      id <> [] ->
      decodeContract id <> None ->
      get_index (sp_value p) 0 = Ok discriminant ->
      supported_discriminant discriminant ->
      get_index (sp_value p) 1 = Ok v1 ->
      (discriminant = JsString (lit "Bytes") -> payload = scvBytes v1) ->
      (discriminant = JsString (lit "Number") -> nativeToScVal_i128 v1 = Ok payload) ->
      (discriminant = JsString (lit "String") -> payload = scvString v1) ->
      getAccount rpc (sp_source p) = Ok account ->
      transaction_for global account
        (invokeContractFunction id (lit "set")
           [scvBytes (JsBuffer (Buffer_from_hex (sp_node p)));
            scvSymbol (JsString (sp_key p));
            scvVec [scvSymbol discriminant; payload]]) = Ok t ->
      requests rpc (setDomainData global p) =
      [ReqGetAccount (sp_source p); ReqSimulateTransaction t]).
Proof.
  split.
  - intros t H. destruct (setDomainData_simulated global rpc p t H)
      as (id & value & account & Hid & _ & _ & Hvalue & _ & Ht).
    destruct (encode_value_Ok _ _ Hvalue)
      as (discriminant & v1 & payload & H0 & Hs & H1 & -> & HB & HN & HS).
    exists id, discriminant, v1, payload.
    pose proof (transaction_for_operations _ _ _ _ Ht) as Hop.
    repeat split; assumption.
  - intros id discriminant v1 payload account t Hid Hne Hdec H0 Hs H1 HB HN HS Hacc Ht.
    exact (setDomainData_sends global rpc p id _ account t Hid Hne Hdec
             (encode_value_supported _ _ _ _ H0 Hs H1 HB HN HS) Hacc Ht).
Qed.

(** X10. Composition with [parseDomain]: given the node [parseDomain]
    returns for a domain, the [get] call [getDomainData] simulates and the
    [record] call [searchDomain] simulates for the same domain carry the
    same bytes, the 32 bytes of the digest that the node encodes. Both calls
    are built and sent: once the two identifiers are accepted, the
    simulation account fetched and the two transactions built around calls
    that carry the bytes [Buffer.from] decodes from the node, each operation
    sends exactly the account fetch followed by the simulation of its
    transaction. *)
Theorem getDomainData_of_parsed_node (p : DomainParams) (node key : jsstring) :
  parseDomain p = Ok node ->
  (forall ts tg,
      In (ReqSimulateTransaction ts) (requests rpc (searchDomain global p)) ->
      In (ReqSimulateTransaction tg)
         (requests rpc (getDomainData global (mkDataParams node key))) ->
      exists vaults values record_key bytes,
        vaultsContractId global = Some vaults /\
        valuesDatabaseContractId global = Some values /\
        tx_operations ts = [record_call vaults record_key bytes] /\
        tx_operations tg =
        [invokeContractFunction values (lit "get")
           [scvBytes (JsBuffer bytes); scvSymbol (JsString key)]] /\
        List.length bytes = 32%nat /\
        Sha3.hex_of_bytes bytes = node) /\
  (forall vaults values account ts tg,
      vaultsContractId global = Some vaults ->
      vaults <> [] ->
      decodeContract vaults <> None ->
      valuesDatabaseContractId global = Some values ->
      values <> [] ->
      decodeContract values <> None ->
      getAccount rpc (simulationAccount global) = Ok account ->
      transaction_for global account
        (record_call vaults
           match subDomain p with
           | Some (_ :: _) => RecordKey_SubRecord
           | _ => RecordKey_Record
           end
           (Buffer_from_hex node)) = Ok ts ->
      transaction_for global account
        (invokeContractFunction values (lit "get")
           [scvBytes (JsBuffer (Buffer_from_hex node)); scvSymbol (JsString key)]) = Ok tg ->
      requests rpc (searchDomain global p) =
        [ReqGetAccount (simulationAccount global); ReqSimulateTransaction ts] /\
      requests rpc (getDomainData global (mkDataParams node key)) =
        [ReqGetAccount (simulationAccount global); ReqSimulateTransaction tg]).
Proof.
  intros Hnode. rewrite parseDomain_eq in Hnode. injection Hnode as <-.
  assert (Hbytes : Buffer_from_hex (Sha3.hex_of_bytes (nodeDigest p)) = nodeDigest p)
    by (apply Buffer_from_hex_of_bytes, nodeDigest_bytes).
  split.
  - intros ts tg Hs Hg.
    destruct (searchDomain_simulated global rpc p ts Hs)
      as (vaults & account & Hvaults & _ & _ & _ & Hts).
    destruct (getDomainData_simulated global rpc _ tg Hg)
      as (values & account' & Hvalues & _ & _ & _ & Htg).
    cbn [dp_node dp_key] in Htg. rewrite Hbytes in Htg.
    exists vaults, values. eexists. exists (nodeDigest p).
    split; [exact Hvaults|]. split; [exact Hvalues|].
    split; [exact (transaction_for_operations _ _ _ _ Hts)|].
    split; [exact (transaction_for_operations _ _ _ _ Htg)|].
    split; [apply nodeDigest_length | reflexivity].
  - intros vaults values account ts tg Hvaults Hne Hdec Hvalues Hne' Hdec' Hacc Hts Htg.
    rewrite Hbytes in Hts. split.
    + exact (searchDomain_sends global rpc p vaults account ts Hvaults Hne Hdec Hacc Hts).
    + exact (getDomainData_sends global rpc (mkDataParams _ key) values account tg
               Hvalues Hne' Hdec' Hacc Htg).
Qed.

(** X11. When the simulation of [setDomainData] or [removeDomainData] is
    answered without an error, the operation hands the very transaction it
    simulated, with that answer, to [assembleTransaction]: it resolves to the
    assembled transaction together with the unchanged answer, and it rejects
    with what [assembleTransaction] throws. *)
Theorem mutation_assembles_simulated :
  (forall p t sim,
      In (ReqSimulateTransaction t) (requests rpc (setDomainData global p)) ->
      simulateTransaction rpc t = Ok sim ->
      isSimulationError sim = false ->
      outcome rpc (setDomainData global p) =
      match assembleTransaction t sim with
      | Ok assembled => Ok (mkAssembled assembled sim)
      | Err e => Err e
      end) /\
  (forall p t sim,
      In (ReqSimulateTransaction t) (requests rpc (removeDomainData global p)) ->
      simulateTransaction rpc t = Ok sim ->
      isSimulationError sim = false ->
      outcome rpc (removeDomainData global p) =
      match assembleTransaction t sim with
      | Ok assembled => Ok (mkAssembled assembled sim)
      | Err e => Err e
      end).
Proof.
  split; intros p t sim H Hsim Hok.
  - rewrite (setDomainData_settles global rpc p t H), Hsim.
    unfold assemble_end. rewrite Hok. destruct (assembleTransaction t sim); reflexivity.
  - rewrite (removeDomainData_settles global rpc p t H), Hsim.
    unfold assemble_end. rewrite Hok. destruct (assembleTransaction t sim); reflexivity.
Qed.

(** X12. [setDomainData] encodes the value before it contacts the RPC
    client: with the identifier configured and accepted by [new Contract],
    when the payload of a Number is refused by [nativeToScVal], or when the
    value is [null] or [undefined], the operation rejects with that error
    and sends no request. *)
Theorem setDomainData_encodes_first (p : SetDataParams) (id : jsstring) :
  valuesDatabaseContractId global = Some id ->
  id <> [] ->
  decodeContract id <> None ->
  (forall v1 e,
      get_index (sp_value p) 0 = Ok (JsString (lit "Number")) ->
      get_index (sp_value p) 1 = Ok v1 ->
      nativeToScVal_i128 v1 = Err e ->
      run rpc (setDomainData global p) = ([], Err e)) /\
  (sp_value p = JsNull \/ sp_value p = JsUndefined ->
   run rpc (setDomainData global p) = ([], Err JsTypeError)).
Proof.
  intros Hid Hne Hdec.
  assert (Hrun : forall e, encode_value (sp_value p) = Err e ->
                           run rpc (setDomainData global p) = ([], Err e)).
  { intros e He. rewrite setDomainData_run, Hid.
    destruct id as [|c id]; [contradiction|].
    rewrite (new_Contract_decoded _ Hdec). cbn [rbind]. rewrite He. reflexivity. }
  split.
  - intros v1 e H0 H1 Hnum. apply Hrun. unfold encode_value.
    rewrite H0. cbn [rbind].
    rewrite (strict_eq_string_false _ _ (fun H => Bytes_is_not_Number (eq_sym H))).
    rewrite strict_eq_string_refl, H1. cbn [rbind]. rewrite Hnum. reflexivity.
  - intros [Hv | Hv]; apply Hrun; rewrite Hv; reflexivity.
Qed.

(** X13. A contract identifier that is configured as the empty string is
    treated as a missing one: the operation fails with the same
    configuration error, before any request. *)
Theorem empty_contract_id_as_missing :
  (vaultsContractId global = Some [] ->
   forall p,
     run rpc (searchDomain global p) =
     ([], Err (JsError (lit "Vault's contract id was not provided")))) /\
  (valuesDatabaseContractId global = Some [] ->
   (forall p,
       run rpc (getDomainData global p) =
       ([], Err (JsError (lit "KeyValue Database contract id was not provided")))) /\
   (forall p,
       run rpc (setDomainData global p) =
       ([], Err (JsError (lit "KeyValue Database contract id was not provided")))) /\
   (forall p,
       run rpc (removeDomainData global p) =
       ([], Err (JsError (lit "KeyValue Database contract id was not provided"))))).
Proof.
  split.
  - intros H p. unfold searchDomain. rewrite H. reflexivity.
  - intros H. split; [|split]; intros p.
    + unfold getDomainData. rewrite H. reflexivity.
    + unfold setDomainData. rewrite H. reflexivity.
    + unfold removeDomainData. rewrite H. reflexivity.
Qed.

(** X14. A success response that carries no [result] makes the two lookups
    fail with a [TypeError] ([sim.result!.retval] reads a member of
    [undefined]), not with their not-found errors. *)
Theorem lookup_without_result_is_type_error :
  (forall p t,
      In (ReqSimulateTransaction t) (requests rpc (searchDomain global p)) ->
      simulateTransaction rpc t = Ok (SimulateTransactionSuccessResponse None) ->
      outcome rpc (searchDomain global p) = Err JsTypeError) /\
  (forall p t,
      In (ReqSimulateTransaction t) (requests rpc (getDomainData global p)) ->
      simulateTransaction rpc t = Ok (SimulateTransactionSuccessResponse None) ->
      outcome rpc (getDomainData global p) = Err JsTypeError).
Proof.
  split; intros p t H Hsim.
  - rewrite (searchDomain_settles global rpc p t H), Hsim. reflexivity.
  - rewrite (getDomainData_settles global rpc p t H), Hsim. reflexivity.
Qed.

End FurtherData.

Lemma toString_hex_rendered {decoder : BufferDecoder} (v : JsVal) (s : jsstring) :
  rendered_hex v = Some s -> toString_hex v = Ok s.
Proof. destruct v; try discriminate; intros [= <-]; reflexivity. Qed.

Lemma toString_rendered {decoder : BufferDecoder} (v : JsVal) (s : jsstring) :
  rendered_decimal v = Some s -> toString v = Ok s.
Proof. destruct v; try discriminate; intros [= <-]; reflexivity. Qed.

Lemma get_rendered_hex {decoder : BufferDecoder} (props : list (jsstring * JsVal))
      (f : Field) (s : jsstring) :
  rendered_field rendered_hex props f = Some s ->
  (v <- get_field (JsObject props) f ;; toString_hex v)%result = Ok s.
Proof.
  unfold rendered_field. cbn [get_field].
  destruct (own_property props (field_name f)) as [v|]; [|discriminate].
  cbn [or_undefined rbind]. apply toString_hex_rendered.
Qed.

Lemma get_rendered_decimal {decoder : BufferDecoder} (props : list (jsstring * JsVal))
      (f : Field) (s : jsstring) :
  rendered_field rendered_decimal props f = Some s ->
  (v <- get_field (JsObject props) f ;; toString v)%result = Ok s.
Proof.
  unfold rendered_field. cbn [get_field].
  destruct (own_property props (field_name f)) as [v|]; [|discriminate].
  cbn [or_undefined rbind]. apply toString_rendered.
Qed.

Ltac invert_binds H :=
  repeat (let a := fresh "a" in
          let E := fresh "E" in
          apply rbind_Ok in H; destruct H as (a & E & H)).

Lemma record_of_result_coherent {decoder : BufferDecoder} (result : JsVal) (r : RecordT) :
  record_of_result result = Ok r ->
  coherent r /\
  (type r = RecordType_Domain <-> get_index result 0 = Ok (JsString (lit "Domain"))).
Proof.
  unfold record_of_result. intros H.
  apply rbind_Ok in H. destruct H as (tag & Htag & H). rewrite Htag.
  destruct (strict_eq_string tag (lit "Domain")) eqn:E.
  - apply strict_eq_string_true in E. subst tag.
    invert_binds H. injection H as <-. split; [reflexivity|]. split; reflexivity.
  - invert_binds H. injection H as <-. split; [reflexivity|]. cbn [type].
    split; [discriminate|]. intros [= ->]. rewrite strict_eq_string_refl in E. discriminate E.
Qed.

Section FurtherLookups.
Context {stellarSDK : StellarSDK} {decoder : BufferDecoder}.
Variable global : SorobanDomainsSDKParams.
Variable rpc : Server.

(** X15. A decoded result that is truthy but has no fields to read (its
    element 1 is [undefined] or [null], as for an array of one element, or is
    an object without [node]) makes [searchDomain] fail with a [TypeError],
    whatever its tag. *)
Theorem searchDomain_malformed_record (p : DomainParams) (t : Transaction)
        (sim : SimulateTransactionResponse) (retval : ScVal) (fields : JsVal) :
  In (ReqSimulateTransaction t) (requests rpc (searchDomain global p)) ->
  simulateTransaction rpc t = Ok sim ->
  sim_result_retval sim = Ok retval ->
  truthy (scValToNative retval) = true ->
  get_index (scValToNative retval) 1 = Ok fields ->
  (fields = JsUndefined \/ fields = JsNull \/
   exists props, fields = JsObject props /\ own_property props (field_name f_node) = None) ->
  outcome rpc (searchDomain global p) = Err JsTypeError.
Proof.
  intros H Hsim Hret Htruthy Hfields Hbad.
  rewrite (searchDomain_settles global rpc p t H), Hsim.
  unfold searchDomain_end.
  rewrite (not_an_error _ _ Hret), Hret. cbn [rbind]. rewrite Htruthy. cbn [negb].
  unfold record_of_result.
  destruct (truthy_has_index _ 0 Htruthy) as (tag & ->). cbn [rbind].
  rewrite Hfields. cbn [rbind].
  destruct (strict_eq_string tag (lit "Domain"));
    destruct Hbad as [-> | [-> | (props & -> & Hnone)]];
    cbn [get_field rbind]; rewrite ?Hnone; reflexivity.
Qed.

(** X16. In a Domain record, a field that the decoder already gives as a
    string (the owner, an address in the deployed contract) is passed through
    unchanged: [toString('hex')] and [toString()] encode bytes and integers
    and leave strings as they are. *)
Theorem searchDomain_renders_fields (p : DomainParams) (t : Transaction)
        (sim : SimulateTransactionResponse) (retval : ScVal)
        (props : list (jsstring * JsVal)) (address : JsVal)
        (node owner exp_date snapshot collateral : jsstring) :
  In (ReqSimulateTransaction t) (requests rpc (searchDomain global p)) ->
  simulateTransaction rpc t = Ok sim ->
  sim_result_retval sim = Ok retval ->
  scValToNative retval = JsArray [JsString (lit "Domain"); JsObject props] ->
  rendered_field rendered_hex props f_node = Some node ->
  rendered_field rendered_hex props f_owner = Some owner ->
  own_property props (field_name f_address) = Some address ->
  rendered_field rendered_decimal props f_exp_date = Some exp_date ->
  rendered_field rendered_decimal props f_snapshot = Some snapshot ->
  rendered_field rendered_decimal props f_collateral = Some collateral ->
  outcome rpc (searchDomain global p) =
  Ok (mkRecord RecordType_Domain
        (DomainValue (Domain.mk node owner address exp_date snapshot collateral))).
Proof.
  intros H Hsim Hret Hshape Hnode Howner Haddress Hexp Hsnap Hcoll.
  rewrite (searchDomain_settles global rpc p t H), Hsim.
  unfold searchDomain_end.
  rewrite (not_an_error _ _ Hret), Hret. cbn [rbind]. rewrite Hshape. cbn [truthy negb].
  unfold record_of_result. cbn [get_index nth rbind].
  rewrite strict_eq_string_refl.
  rewrite (get_rendered_hex _ _ _ Hnode), (get_rendered_hex _ _ _ Howner),
    (get_own_field _ _ _ Haddress), (get_rendered_decimal _ _ _ Hexp),
    (get_rendered_decimal _ _ _ Hsnap), (get_rendered_decimal _ _ _ Hcoll).
  reflexivity.
Qed.

(** X17. Whenever [searchDomain] resolves, the record's [type] and [value]
    are of the same variant, it is a Domain exactly when the decoded tag is
    the string "Domain", and the record was decoded from a truthy return value
    of a simulation that the operation requested after the account fetch. *)
Theorem searchDomain_resolves_coherent (p : DomainParams) (r : RecordT) :
  outcome rpc (searchDomain global p) = Ok r ->
  coherent r /\
  exists t sim retval,
    requests rpc (searchDomain global p) =
      [ReqGetAccount (simulationAccount global); ReqSimulateTransaction t] /\
    simulateTransaction rpc t = Ok sim /\
    sim_result_retval sim = Ok retval /\
    truthy (scValToNative retval) = true /\
    (type r = RecordType_Domain <->
     get_index (scValToNative retval) 0 = Ok (JsString (lit "Domain"))).
Proof.
  unfold outcome, requests. rewrite searchDomain_run.
  destruct (vaultsContractId global) as [[|c id]|]; try discriminate.
  intros H. apply round_trip_resolved in H.
  destruct H as (op & account & t & sim & _ & _ & _ & Hreq & Hsim & H).
  cbv beta in H. unfold searchDomain_end in H.
  destruct (isSimulationError sim); [discriminate|].
  destruct (sim_result_retval sim) as [retval|e] eqn:Hret; [|discriminate].
  cbn [rbind] in H.
  destruct (truthy (scValToNative retval)) eqn:Htruthy; [|discriminate].
  cbn [negb] in H. destruct (record_of_result_coherent _ _ H) as [Hc Htag].
  split; [exact Hc|]. exists t, sim, retval.
  split; [exact Hreq|]. split; [exact Hsim|]. split; [exact Hret|].
  split; [exact Htruthy | exact Htag].
Qed.

(** X18. Whenever a data operation resolves, it has fetched the account and
    simulated one transaction that was answered without error:
    [getDomainData] then resolves to the decoded return value, which is
    truthy; [setDomainData] and [removeDomainData] resolve to the answer
    itself and to what [assembleTransaction] made of the simulated
    transaction. *)
Theorem data_operations_resolve_after_simulation :
  (forall p v,
      outcome rpc (getDomainData global p) = Ok v ->
      exists t sim retval,
        requests rpc (getDomainData global p) =
          [ReqGetAccount (simulationAccount global); ReqSimulateTransaction t] /\
        simulateTransaction rpc t = Ok sim /\
        sim_result_retval sim = Ok retval /\
        v = scValToNative retval /\ truthy v = true) /\
  (forall p a,
      outcome rpc (setDomainData global p) = Ok a ->
      exists t,
        requests rpc (setDomainData global p) =
          [ReqGetAccount (sp_source p); ReqSimulateTransaction t] /\
        simulateTransaction rpc t = Ok (sim a) /\
        isSimulationError (sim a) = false /\
        assembleTransaction t (sim a) = Ok (tx a)) /\
  (forall p a,
      outcome rpc (removeDomainData global p) = Ok a ->
      exists t,
        requests rpc (removeDomainData global p) =
          [ReqGetAccount (rp_source p); ReqSimulateTransaction t] /\
        simulateTransaction rpc t = Ok (sim a) /\
        isSimulationError (sim a) = false /\
        assembleTransaction t (sim a) = Ok (tx a)).
Proof.
  split; [|split].
  - intros p v. unfold outcome, requests. rewrite getDomainData_run.
    destruct (valuesDatabaseContractId global) as [[|c id]|]; try discriminate.
    intros H. apply round_trip_resolved in H.
    destruct H as (op & account & t & s & _ & _ & _ & Hreq & Hsim & H).
    cbv beta in H. unfold getDomainData_end in H.
    destruct (isSimulationError s); [discriminate|].
    destruct (sim_result_retval s) as [retval|e] eqn:Hret; [|discriminate].
    cbn [rbind] in H.
    destruct (truthy (scValToNative retval)) eqn:Htruthy; [|discriminate].
    cbn [negb] in H. injection H as <-. exists t, s, retval.
    split; [exact Hreq|]. split; [exact Hsim|]. split; [exact Hret|].
    split; [reflexivity | exact Htruthy].
  - intros p a. unfold outcome, requests. rewrite setDomainData_run.
    destruct (valuesDatabaseContractId global) as [[|c id]|]; try discriminate.
    intros H. apply round_trip_resolved in H.
    destruct H as (op & account & t & s & _ & _ & _ & Hreq & Hsim & H).
    unfold assemble_end in H.
    destruct (isSimulationError s) eqn:Hok; [discriminate|].
    destruct (assembleTransaction t s) as [assembled|e] eqn:Hasm; [|discriminate].
    cbn [rbind] in H. injection H as <-. exists t. cbn [sim tx].
    split; [exact Hreq|]. split; [exact Hsim|]. split; [exact Hok | exact Hasm].
  - intros p a. unfold outcome, requests. rewrite removeDomainData_run.
    destruct (valuesDatabaseContractId global) as [[|c id]|]; try discriminate.
    intros H. apply round_trip_resolved in H.
    destruct H as (op & account & t & s & _ & _ & _ & Hreq & Hsim & H).
    unfold assemble_end in H.
    destruct (isSimulationError s) eqn:Hok; [discriminate|].
    destruct (assembleTransaction t s) as [assembled|e] eqn:Hasm; [|discriminate].
    cbn [rbind] in H. injection H as <-. exists t. cbn [sim tx].
    split; [exact Hreq|]. split; [exact Hsim|]. split; [exact Hok | exact Hasm].
Qed.

End FurtherLookups.


(* ================================================================= *)
(** ** The further properties on concrete inputs *)

Lemma account_rejection_propagates_witness :
  run offline_server (searchDomain sample_global example_params) =
    ([ReqGetAccount simulation_account], Err account_not_found) /\
  run offline_server (getDomainData sample_global example_data_params) =
    ([ReqGetAccount simulation_account], Err account_not_found) /\
  run offline_server (setDomainData sample_global (example_set_params example_string_value)) =
    ([ReqGetAccount source_account], Err account_not_found) /\
  run offline_server (removeDomainData sample_global example_remove_params) =
    ([ReqGetAccount source_account], Err account_not_found).
Proof.
  destruct (account_rejection_propagates sample_global offline_server account_not_found)
    as (Hsearch & Hget & Hset & Hremove).
  split; [|split; [|split]].
  - apply Hsearch; [vm_compute; left; reflexivity | reflexivity].
  - apply Hget; [vm_compute; left; reflexivity | reflexivity].
  - apply Hset; [vm_compute; left; reflexivity | reflexivity].
  - apply Hremove; [vm_compute; left; reflexivity | reflexivity].
Defined.

Lemma simulation_rejection_propagates_witness :
  outcome flaky_server (searchDomain sample_global example_params) = Err unreachable /\
  outcome flaky_server (getDomainData sample_global example_data_params) = Err unreachable /\
  outcome flaky_server (setDomainData sample_global (example_set_params example_string_value)) =
    Err unreachable /\
  outcome flaky_server (removeDomainData sample_global example_remove_params) =
    Err unreachable.
Proof.
  destruct (simulation_rejection_propagates sample_global flaky_server unreachable)
    as (Hsearch & Hget & Hset & Hremove).
  split; [|split; [|split]].
  - apply (Hsearch example_params example_record_tx);
      [vm_compute; right; left; reflexivity | reflexivity].
  - apply (Hget example_data_params example_get_tx);
      [vm_compute; right; left; reflexivity | reflexivity].
  - apply (Hset (example_set_params example_string_value) example_set_tx);
      [vm_compute; right; left; reflexivity | reflexivity].
  - apply (Hremove example_remove_params example_remove_tx);
      [vm_compute; right; left; reflexivity | reflexivity].
Defined.

Lemma getDomainData_returns_decoded_witness :
  outcome (sample_server (returns sample_stored_value))
          (getDomainData sample_global example_data_params) =
  Ok example_string_value.
Proof.
  change example_string_value with (scValToNative sample_stored_value).
  apply (getDomainData_returns_decoded sample_global
           (sample_server (returns sample_stored_value)) example_data_params
           example_get_tx (returns sample_stored_value) sample_stored_value).
  - vm_compute. right; left; reflexivity.
  - reflexivity.
  - reflexivity.
  - reflexivity.
Defined.

Lemma simulated_transaction_envelope_witness :
  exists account op,
    getAccount (sample_server (returns scvVoid)) source_account = Ok account /\
    enveloped sample_global account op example_set_tx.
Proof.
  destruct (simulated_transaction_envelope sample_global (sample_server (returns scvVoid)))
    as (_ & _ & Hset & _).
  apply (Hset (example_set_params example_string_value) example_set_tx).
  vm_compute. right; left; reflexivity.
Defined.

Lemma data_lookup_and_removal_calls_witness :
  requests (sample_server (returns scvVoid))
           (getDomainData sample_global example_data_params) =
    [ReqGetAccount simulation_account; ReqSimulateTransaction example_get_tx] /\
  requests (sample_server (returns scvVoid))
           (removeDomainData sample_global example_remove_params) =
    [ReqGetAccount source_account; ReqSimulateTransaction example_remove_tx] /\
  (exists id,
      valuesDatabaseContractId sample_global = Some id /\
      tx_operations example_get_tx =
      [invokeContractFunction id (lit "get")
         [scvBytes (JsBuffer (Buffer_from_hex (lit "00ff")));
          scvSymbol (JsString (lit "website"))]]) /\
  (exists id,
      valuesDatabaseContractId sample_global = Some id /\
      tx_operations example_remove_tx =
      [invokeContractFunction id (lit "remove")
         [scvBytes (JsBuffer (Buffer_from_hex (lit "00ff")));
          scvSymbol (JsString (lit "website"))]]).
Proof.
  destruct (data_lookup_and_removal_calls sample_global (sample_server (returns scvVoid)))
    as (Hget & Hremove & Hget_sent & Hremove_sent).
  split; [|split; [|split]].
  - apply (Hget_sent example_data_params values_id (mkAccount simulation_account 7)
             example_get_tx).
    + reflexivity.
    + discriminate.
    + vm_compute. discriminate.
    + reflexivity.
    + vm_compute. reflexivity.
  - apply (Hremove_sent example_remove_params values_id (mkAccount source_account 7)
             example_remove_tx).
    + reflexivity.
    + discriminate.
    + vm_compute. discriminate.
    + reflexivity.
    + vm_compute. reflexivity.
  - apply (Hget example_data_params example_get_tx).
    vm_compute. right; left; reflexivity.
  - apply (Hremove example_remove_params example_remove_tx).
    vm_compute. right; left; reflexivity.
Defined.

Lemma setDomainData_call_witness :
  requests (sample_server (returns scvVoid))
           (setDomainData sample_global (example_set_params example_string_value)) =
    [ReqGetAccount source_account; ReqSimulateTransaction example_set_tx] /\
  exists id discriminant v1 payload,
    valuesDatabaseContractId sample_global = Some id /\
    get_index example_string_value 0 = Ok discriminant /\
    supported_discriminant discriminant /\
    get_index example_string_value 1 = Ok v1 /\
    tx_operations example_set_tx =
    [invokeContractFunction id (lit "set")
       [scvBytes (JsBuffer (Buffer_from_hex (lit "00ff")));
        scvSymbol (JsString (lit "website"));
        scvVec [scvSymbol discriminant; payload]]] /\
    (discriminant = JsString (lit "Bytes") -> payload = scvBytes v1) /\
    (discriminant = JsString (lit "Number") -> nativeToScVal_i128 v1 = Ok payload) /\
    (discriminant = JsString (lit "String") -> payload = scvString v1).
Proof.
  destruct (setDomainData_call sample_global (sample_server (returns scvVoid))
              (example_set_params example_string_value)) as (Hcall & Hsent).
  split.
  - apply (Hsent values_id (JsString (lit "String")) (JsString (lit "https://example.org"))
             (scvString (JsString (lit "https://example.org")))
             (mkAccount source_account 7) example_set_tx).
    + reflexivity.
    + discriminate.
    + vm_compute. discriminate.
    + reflexivity.
    + right; right. reflexivity.
    + reflexivity.
    + intros H. vm_compute in H. discriminate H.
    + intros H. vm_compute in H. discriminate H.
    + reflexivity.
    + reflexivity.
    + vm_compute. reflexivity.
  - apply (Hcall example_set_tx). vm_compute. right; left; reflexivity.
Defined.

Lemma getDomainData_of_parsed_node_witness :
  (requests (sample_server (returns scvVoid)) (searchDomain sample_global example_params) =
     [ReqGetAccount simulation_account; ReqSimulateTransaction example_record_tx] /\
   requests (sample_server (returns scvVoid))
            (getDomainData sample_global example_node_params) =
     [ReqGetAccount simulation_account; ReqSimulateTransaction example_node_get_tx]) /\
  exists vaults values record_key bytes,
    vaultsContractId sample_global = Some vaults /\
    valuesDatabaseContractId sample_global = Some values /\
    tx_operations example_record_tx = [record_call vaults record_key bytes] /\
    tx_operations example_node_get_tx =
    [invokeContractFunction values (lit "get")
       [scvBytes (JsBuffer bytes); scvSymbol (JsString (lit "website"))]] /\
    List.length bytes = 32%nat /\
    Sha3.hex_of_bytes bytes =
    lit "dc75a4bce9e729fa81f394f85e2d09e0e47d7b0b2f3bbd5ffe8aef88cedb9eca".
Proof.
  destruct (getDomainData_of_parsed_node sample_global (sample_server (returns scvVoid))
              example_params
              (lit "dc75a4bce9e729fa81f394f85e2d09e0e47d7b0b2f3bbd5ffe8aef88cedb9eca")
              (lit "website")) as (Hsame & Hsent); [vm_compute; reflexivity|].
  split.
  - apply (Hsent vaults_id values_id (mkAccount simulation_account 7)
             example_record_tx example_node_get_tx).
    + reflexivity.
    + discriminate.
    + vm_compute. discriminate.
    + reflexivity.
    + discriminate.
    + vm_compute. discriminate.
    + reflexivity.
    + vm_compute. reflexivity.
    + vm_compute. reflexivity.
  - apply (Hsame example_record_tx example_node_get_tx).
    + vm_compute. right; left; reflexivity.
    + vm_compute. right; left; reflexivity.
Defined.

Lemma mutation_assembles_simulated_witness :
  outcome (sample_server (returns scvVoid))
          (setDomainData sample_global (example_set_params example_string_value)) =
    Ok (mkAssembled example_set_tx (returns scvVoid)) /\
  outcome (sample_server (returns scvVoid))
          (removeDomainData sample_global example_remove_params) =
    Ok (mkAssembled example_remove_tx (returns scvVoid)).
Proof.
  destruct (mutation_assembles_simulated sample_global (sample_server (returns scvVoid)))
    as (Hset & Hremove).
  split.
  - apply (Hset (example_set_params example_string_value) example_set_tx (returns scvVoid));
      [vm_compute; right; left; reflexivity | reflexivity | reflexivity].
  - apply (Hremove example_remove_params example_remove_tx (returns scvVoid));
      [vm_compute; right; left; reflexivity | reflexivity | reflexivity].
Defined.

Lemma setDomainData_encodes_first_witness :
  run (sample_server (returns scvVoid))
      (setDomainData sample_global (example_set_params example_number_value)) =
    ([], Err JsSyntaxError) /\
  run (sample_server (returns scvVoid))
      (setDomainData sample_global (example_set_params JsUndefined)) =
    ([], Err JsTypeError).
Proof.
  split.
  - destruct (setDomainData_encodes_first sample_global (sample_server (returns scvVoid))
                (example_set_params example_number_value) values_id)
      as (Hnumber & _); [reflexivity | discriminate | vm_compute; discriminate |].
    apply (Hnumber (JsString (lit "twelve")) JsSyntaxError); reflexivity.
  - destruct (setDomainData_encodes_first sample_global (sample_server (returns scvVoid))
                (example_set_params JsUndefined) values_id)
      as (_ & Habsent); [reflexivity | discriminate | vm_compute; discriminate |].
    apply Habsent. right. reflexivity.
Defined.

(** [Buffer.from(s, 'hex')] reads the low byte of each code unit, and stops
    at the first pair that is not two hexadecimal digits. *)
Example Buffer_from_hex_examples :
  Buffer_from_hex (lit "00ff") = [0; 255] /\
  Buffer_from_hex [353; 353] = [170] /\
  Buffer_from_hex (lit "0g11") = [] /\
  Buffer_from_hex (lit "abc") = [171].
Proof. vm_compute. repeat split. Qed.

Lemma empty_contract_id_as_missing_witness :
  run (sample_server (returns scvVoid)) (searchDomain empty_id_global example_params) =
    ([], Err (JsError (lit "Vault's contract id was not provided"))) /\
  run (sample_server (returns scvVoid)) (getDomainData empty_id_global example_data_params) =
    ([], Err (JsError (lit "KeyValue Database contract id was not provided"))) /\
  run (sample_server (returns scvVoid))
      (setDomainData empty_id_global (example_set_params example_string_value)) =
    ([], Err (JsError (lit "KeyValue Database contract id was not provided"))) /\
  run (sample_server (returns scvVoid)) (removeDomainData empty_id_global example_remove_params) =
    ([], Err (JsError (lit "KeyValue Database contract id was not provided"))).
Proof.
  destruct (empty_contract_id_as_missing empty_id_global (sample_server (returns scvVoid)))
    as [Hvaults Hvalues].
  destruct (Hvalues eq_refl) as (Hget & Hset & Hremove).
  split; [|split; [|split]].
  - apply (Hvaults eq_refl).
  - apply Hget.
  - apply Hset.
  - apply Hremove.
Defined.

Lemma lookup_without_result_is_type_error_witness :
  outcome (sample_server no_result) (searchDomain sample_global example_params) =
    Err JsTypeError /\
  outcome (sample_server no_result) (getDomainData sample_global example_data_params) =
    Err JsTypeError.
Proof.
  destruct (lookup_without_result_is_type_error sample_global (sample_server no_result))
    as (Hsearch & Hget).
  split.
  - apply (Hsearch example_params example_record_tx);
      [vm_compute; right; left; reflexivity | reflexivity].
  - apply (Hget example_data_params example_get_tx);
      [vm_compute; right; left; reflexivity | reflexivity].
Defined.

Lemma searchDomain_malformed_record_witness :
  outcome (sample_server (returns (scvVec [symbol "Domain"])))
          (searchDomain sample_global example_params) =
  Err JsTypeError.
Proof.
  apply (searchDomain_malformed_record sample_global
           (sample_server (returns (scvVec [symbol "Domain"]))) example_params
           example_record_tx (returns (scvVec [symbol "Domain"]))
           (scvVec [symbol "Domain"]) JsUndefined).
  - vm_compute. right; left; reflexivity.
  - reflexivity.
  - reflexivity.
  - reflexivity.
  - reflexivity.
  - left. reflexivity.
Defined.

Lemma searchDomain_renders_fields_witness :
  outcome (sample_server (returns sample_owned_domain))
          (searchDomain sample_global example_params) =
  Ok example_owned_record.
Proof.
  eapply (searchDomain_renders_fields sample_global
            (sample_server (returns sample_owned_domain)) example_params
            example_record_tx (returns sample_owned_domain) sample_owned_domain).
  - vm_compute. right; left; reflexivity.
  - reflexivity.
  - reflexivity.
  - reflexivity.
  - vm_compute. reflexivity.
  - vm_compute. reflexivity.
  - vm_compute. reflexivity.
  - vm_compute. reflexivity.
  - vm_compute. reflexivity.
  - vm_compute. reflexivity.
Defined.

Lemma searchDomain_resolves_coherent_witness :
  coherent example_owned_record /\
  exists t sim retval,
    requests (sample_server (returns sample_owned_domain))
             (searchDomain sample_global example_params) =
      [ReqGetAccount (simulationAccount sample_global); ReqSimulateTransaction t] /\
    simulateTransaction (sample_server (returns sample_owned_domain)) t = Ok sim /\
    sim_result_retval sim = Ok retval /\
    truthy (scValToNative retval) = true /\
    (type example_owned_record = RecordType_Domain <->
     get_index (scValToNative retval) 0 = Ok (JsString (lit "Domain"))).
Proof.
  apply (searchDomain_resolves_coherent sample_global
           (sample_server (returns sample_owned_domain)) example_params).
  vm_compute. reflexivity.
Defined.

Lemma data_operations_resolve_after_simulation_witness :
  (exists t sim retval,
      requests (sample_server (returns sample_stored_value))
               (getDomainData sample_global example_data_params) =
        [ReqGetAccount (simulationAccount sample_global); ReqSimulateTransaction t] /\
      simulateTransaction (sample_server (returns sample_stored_value)) t = Ok sim /\
      sim_result_retval sim = Ok retval /\
      example_string_value = scValToNative retval /\
      truthy example_string_value = true) /\
  (exists t,
      requests (sample_server (returns scvVoid))
               (removeDomainData sample_global example_remove_params) =
        [ReqGetAccount source_account; ReqSimulateTransaction t] /\
      simulateTransaction (sample_server (returns scvVoid)) t = Ok (returns scvVoid) /\
      isSimulationError (returns scvVoid) = false /\
      assembleTransaction t (returns scvVoid) = Ok example_remove_tx).
Proof.
  split.
  - destruct (data_operations_resolve_after_simulation sample_global
                (sample_server (returns sample_stored_value))) as (Hget & _).
    apply (Hget example_data_params example_string_value). vm_compute. reflexivity.
  - destruct (data_operations_resolve_after_simulation sample_global
                (sample_server (returns scvVoid))) as (_ & _ & Hremove).
    apply (Hremove example_remove_params (mkAssembled example_remove_tx (returns scvVoid))).
    vm_compute. reflexivity.
Defined.
